(** * Risk dashboard: the client-side reconciliation layer

    A shallow embedding of the JavaScript sources of the dashboard's data
    layer: the zustand store ([riskStore]), the HTTP client ([ApiService]),
    the validators, the [useRiskData] hook and the [useWebSocket] hook.

    JavaScript numbers are IEEE-754 binary64 values, modelled by Rocq's
    primitive floats.  Decoded JSON bodies are values of [JsVal]; an object
    is an association list read by its first matching key.  Asynchronous
    code is modelled twice: run to its end over a [World] (the store, the
    clock, the requests issued so far and the network's answers), and, for
    the hooks, as steps over a state that records what is in flight. *)

From Stdlib Require Import List String Ascii ZArith Bool Lia.
From Stdlib Require Import Uint63 PrimFloat.
From Stdlib Require Import Floats DecimalString.
Import ListNotations.
Open Scope string_scope.

(** ** JavaScript values *)

#[warnings="-register-all"]
Inductive JsVal : Type :=
| JUndefined
| JNull
| JBool (b : bool)
| JNum (n : float)
| JStr (s : string)
| JArr (items : list JsVal)
| JObj (fields : list (string * JsVal)).

Fixpoint lookup (k : string) (fs : list (string * JsVal)) : JsVal :=
  match fs with
  | [] => JUndefined
  | (k', v) :: rest => if String.eqb k k' then v else lookup k rest
  end.

(** [v.k] for a receiver that is neither [null] nor [undefined].  The keys
    read by the sources (data, summary, error, timestamp, systemic_risk, ...)
    are not properties of the built-in prototypes, so a primitive or an
    array receiver yields [undefined]. *)
Definition get (v : JsVal) (k : string) : JsVal :=
  match v with
  | JObj fs => lookup k fs
  | _ => JUndefined
  end.

Definition nullish (v : JsVal) : bool :=
  match v with
  | JUndefined | JNull => true
  | _ => false
  end.

(** [v?.k] *)
Definition opt_get (v : JsVal) (k : string) : JsVal :=
  if nullish v then JUndefined else get v k.

(** ToBoolean *)
Definition truthy (v : JsVal) : bool :=
  match v with
  | JUndefined | JNull => false
  | JBool b => b
  | JNum n => negb (is_zero n || is_nan n)
  | JStr s => negb (String.eqb s "")
  | JArr _ | JObj _ => true
  end.

(** [a || b] and [!a] *)
Definition js_or (a b : JsVal) : JsVal := if truthy a then a else b.
Definition js_not (a : JsVal) : bool := negb (truthy a).

Definition typeof (v : JsVal) : string :=
  match v with
  | JUndefined => "undefined"
  | JBool _ => "boolean"
  | JNum _ => "number"
  | JStr _ => "string"
  | JNull | JArr _ | JObj _ => "object"
  end.

Definition isArray (v : JsVal) : bool :=
  match v with
  | JArr _ => true
  | _ => false
  end.

(** The number of a length or of a loop counter. *)
Definition of_nat (n : nat) : float :=
  PrimFloat.of_uint63 (Uint63.of_Z (Z.of_nat n)).

(** ** Errors and results *)

Record JsError : Type := mkError { err_name : string; err_message : string }.

(** [new Error(msg)] *)
Definition Error (msg : string) : JsError := mkError "Error" msg.

(** The TypeError of [v.k] for a [null] or [undefined] receiver [v]; the
    text is V8's. *)
Definition TypeError_read_of (v : JsVal) (k : string) : JsError :=
  mkError "TypeError"
    ("Cannot read properties of "
       ++ (match v with JNull => "null" | _ => "undefined" end)
       ++ " (reading '" ++ k ++ "')").

(** The RangeError of a call [f(...xs)] that spreads more arguments than the
    engine accepts; the text is V8's. *)
Definition RangeError_spread : JsError :=
  mkError "RangeError" "Maximum call stack size exceeded".

(** [String(err)] for an error object. *)
Definition error_to_string (e : JsError) : string :=
  if String.eqb (err_message e) "" then err_name e
  else if String.eqb (err_name e) "" then err_message e
  else err_name e ++ ": " ++ err_message e.

Inductive Result (A : Type) : Type :=
| Ok (a : A)
| Throw (e : JsError).
Arguments Ok {A} a.
Arguments Throw {A} e.

(** ** Arithmetic of the engine *)

Definition min2 (a b : float) : float :=
  if is_nan a || is_nan b then nan
  else if ltb a b then a
  else if ltb b a then b
  else if get_sign a then a else b.

Definition max2 (a b : float) : float :=
  if is_nan a || is_nan b then nan
  else if ltb a b then b
  else if ltb b a then a
  else if get_sign a then b else a.

(** [Math.min] and [Math.max] applied to the arguments [xs]. *)
Definition Math_min (xs : list float) : float := fold_left min2 xs infinity.
Definition Math_max (xs : list float) : float := fold_left max2 xs neg_infinity.

(** [Math.pow(x, 2)], taken as the exact IEEE square. *)
Definition Math_pow2 (x : float) : float := PrimFloat.mul x x.

Definition Math_sqrt (x : float) : float := PrimFloat.sqrt x.

Section Engine.

(** The engine's conversions between strings and numbers
    (StringToNumber, Number::toString) and its date parser
    ([new Date(s).getTime()]) are not part of the repository; the
    development is parametric in them. *)
Variable StringToNumber : string -> float.
Variable NumberToString : float -> string.
Variable DateParse : string -> float.

(** ECMAScript puts no bound on the number of arguments of a call; engines
    do, and a call [f(...xs)] that spreads a longer array throws a
    RangeError.  [spread_limit] is the engine's bound (V8's follows from the
    stack that is left: of the order of 120000 arguments with its default
    stack). *)
Variable spread_limit : N.

Set Default Proof Using "Type".

(** ToString; an array is its elements joined by commas, with [null] and
    [undefined] elements printed as the empty string. *)
Fixpoint ToString (v : JsVal) : string :=
  match v with
  | JUndefined => "undefined"
  | JNull => "null"
  | JBool true => "true"
  | JBool false => "false"
  | JNum n => NumberToString n
  | JStr s => s
  | JArr items =>
      (fix join (l : list JsVal) : string :=
         match l with
         | [] => ""
         | x :: rest =>
             let sx := if nullish x then "" else ToString x in
             match rest with
             | [] => sx
             | _ :: _ => sx ++ "," ++ join rest
             end
         end) items
  | JObj _ => "[object Object]"
  end.

(** ToPrimitive: arrays and plain objects convert through [toString]. *)
Definition ToPrimitive (v : JsVal) : JsVal :=
  match v with
  | JArr _ | JObj _ => JStr (ToString v)
  | _ => v
  end.

Definition ToNumber (v : JsVal) : float :=
  match ToPrimitive v with
  | JUndefined => nan
  | JNull => 0%float
  | JBool b => if b then 1%float else 0%float
  | JNum n => n
  | JStr s => StringToNumber s
  | JArr _ | JObj _ => nan
  end.

(** [a + b] *)
Definition js_add (a b : JsVal) : JsVal :=
  let pa := ToPrimitive a in
  let pb := ToPrimitive b in
  match pa, pb with
  | JStr _, _ | _, JStr _ => JStr (ToString pa ++ ToString pb)
  | _, _ => JNum (PrimFloat.add (ToNumber pa) (ToNumber pb))
  end.

(** The global [isNaN]. *)
Definition isNaN (v : JsVal) : bool := is_nan (ToNumber v).

(** [f(...xs)] for a function [f] of numbers. *)
Definition spread_call (f : list float -> float) (xs : list JsVal)
  : Result float :=
  if (N.of_nat (List.length xs) <=? spread_limit)%N
  then Ok (f (map ToNumber xs))
  else Throw RangeError_spread.

(** ** services/api.js: [_generateSummaryFromArray] *)

(** [data.map(d => d.systemic_risk || 0)]: the read throws on a [null]
    element. *)
Fixpoint map_systemic_risk (data : list JsVal) : Result (list JsVal) :=
  match data with
  | [] => Ok []
  | d :: rest =>
      if nullish d then Throw (TypeError_read_of d "systemic_risk")
      else
        match map_systemic_risk rest with
        | Ok rs => Ok (js_or (get d "systemic_risk") (JNum 0%float) :: rs)
        | Throw e => Throw e
        end
  end.

Definition summary_of (data systemicRisks : list JsVal) : Result JsVal :=
  let n := of_nat (List.length systemicRisks) in
  let mean :=
    PrimFloat.div (ToNumber (fold_left js_add systemicRisks (JNum 0%float))) n in
  let std :=
    Math_sqrt
      (PrimFloat.div
         (fold_left
            (fun sum risk =>
               PrimFloat.add sum
                 (Math_pow2 (PrimFloat.sub (ToNumber risk) mean)))
            systemicRisks 0%float)
         n) in
  match spread_call Math_min systemicRisks with
  | Throw e => Throw e
  | Ok period_min =>
      match spread_call Math_max systemicRisks with
      | Throw e => Throw e
      | Ok period_max =>
          Ok (JObj
                [ ("period_mean", JNum mean);
                  ("period_std", JNum std);
                  ("period_min", JNum period_min);
                  ("period_max", JNum period_max);
                  ("data_points", JNum (of_nat (List.length data)));
                  ("date_range",
                    JObj
                      [ ("start",
                          js_or (opt_get (hd JUndefined data) "date") (JStr ""));
                        ("end",
                          js_or (opt_get (last data JUndefined) "date")
                            (JStr "")) ]) ])
      end
  end.

Definition _generateSummaryFromArray (data : JsVal) : Result JsVal :=
  match data with
  | JArr [] => Ok JNull
  | JArr items =>
      match map_systemic_risk items with
      | Throw e => Throw e
      | Ok mapped =>
          let systemicRisks := filter (fun risk => negb (isNaN risk)) mapped in
          match systemicRisks with
          | [] => Ok JNull
          | _ :: _ => summary_of items systemicRisks
          end
      end
  | _ => Ok JNull
  end.


(** ** stores/riskStore.js *)

Record Store : Type := mkStore {
  riskHistory : JsVal;
  summaryData : JsVal;
  currentMetrics : JsVal;
  systemicData : JsVal;
  isLoading : bool;
  error : JsVal;
  lastUpdated : option Z   (* [null], or the time value of a [Date] *)
}.

Definition initialStore : Store :=
  {| riskHistory := JArr [];
     summaryData := JNull;
     currentMetrics := JObj [];
     systemicData := JNull;
     isLoading := false;
     error := JNull;
     lastUpdated := None |}.

(** [v && v.data && Array.isArray(v.data)], the test of the enhanced shape
    shared by the store, the client and the hook. *)
Definition has_data_array (v : JsVal) : bool :=
  truthy v && truthy (get v "data") && isArray (get v "data").

(** [setRiskData(data)], with [now] the reading of [new Date()]. *)
Definition setRiskData (now : Z) (data : JsVal) (s : Store) : Store :=
  if has_data_array data then
    {| riskHistory := get data "data";
       summaryData := js_or (get data "summary") JNull;
       currentMetrics := js_or (get data "current_metrics") (JObj []);
       systemicData := systemicData s;
       isLoading := isLoading s;
       error := JNull;
       lastUpdated := Some now |}
  else if isArray data then
    {| riskHistory := data;
       summaryData := JNull;
       currentMetrics := JObj [];
       systemicData := systemicData s;
       isLoading := isLoading s;
       error := JNull;
       lastUpdated := Some now |}
  else
    {| riskHistory := JArr [];
       summaryData := JNull;
       currentMetrics := JObj [];
       systemicData := systemicData s;
       isLoading := isLoading s;
       error := JStr "Invalid data format";
       lastUpdated := lastUpdated s |}.

Definition setRealtimeData (now : Z) (realtimeData : JsVal) (s : Store) : Store :=
  {| riskHistory := riskHistory s;
     summaryData := summaryData s;
     currentMetrics := realtimeData;
     systemicData := systemicData s;
     isLoading := isLoading s;
     error := error s;
     lastUpdated := Some now |}.

Definition setSummaryData (summary : JsVal) (s : Store) : Store :=
  {| riskHistory := riskHistory s;
     summaryData := summary;
     currentMetrics := currentMetrics s;
     systemicData := systemicData s;
     isLoading := isLoading s;
     error := error s;
     lastUpdated := lastUpdated s |}.

Definition setCurrentMetrics (now : Z) (metrics : JsVal) (s : Store) : Store :=
  {| riskHistory := riskHistory s;
     summaryData := summaryData s;
     currentMetrics := metrics;
     systemicData := systemicData s;
     isLoading := isLoading s;
     error := error s;
     lastUpdated := Some now |}.

Definition setLoading (loading : bool) (s : Store) : Store :=
  {| riskHistory := riskHistory s;
     summaryData := summaryData s;
     currentMetrics := currentMetrics s;
     systemicData := systemicData s;
     isLoading := loading;
     error := error s;
     lastUpdated := lastUpdated s |}.

Definition setError (e : JsVal) (s : Store) : Store :=
  {| riskHistory := riskHistory s;
     summaryData := summaryData s;
     currentMetrics := currentMetrics s;
     systemicData := systemicData s;
     isLoading := isLoading s;
     error := e;
     lastUpdated := lastUpdated s |}.

(** [reset()] leaves [systemicData] as it is. *)
Definition reset (s : Store) : Store :=
  {| riskHistory := JArr [];
     summaryData := JNull;
     currentMetrics := JObj [];
     systemicData := systemicData s;
     isLoading := false;
     error := JNull;
     lastUpdated := None |}.

(** ** The world of a fetch: store, clock, network *)

Record Request : Type := mkRequest {
  endpoint : string;
  params : list (string * JsVal)   (* the [URLSearchParams] entries, in order *)
}.

Record Response : Type := mkResponse {
  ok : bool;
  status : float;
  json : Result JsVal              (* what [response.json()] settles to *)
}.

Inductive Outcome : Type :=
| Rejected (e : JsError)           (* [fetch] rejects: no response at all *)
| Responded (r : Response).

Inductive Event : Type :=
| Requested (r : Request)
| Slept (ms : Z).

(** [network n r] is what the [n]-th call of [fetch] (counted from 0) gets
    for the request [r]. *)
Record World : Type := mkWorld {
  store : Store;
  clock : Z;
  issued : nat;
  trace : list Event;
  network : nat -> Request -> Outcome
}.

Definition M (A : Type) : Type := World -> Result A * World.

Definition ret {A} (a : A) : M A := fun w => (Ok a, w).
Definition throw {A} (e : JsError) : M A := fun w => (Throw e, w).
Definition lift {A} (r : Result A) : M A := fun w => (r, w).

Definition bind {A B} (m : M A) (k : A -> M B) : M B :=
  fun w =>
    match m w with
    | (Ok a, w1) => k a w1
    | (Throw e, w1) => (Throw e, w1)
    end.

Notation "x <- m ;; k" := (bind m (fun x => k))
  (at level 100, m at next level, right associativity).

(** [try { m } finally { f }], for a finaliser that only writes the store. *)
Definition finally {A} (m : M A) (f : World -> World) : M A :=
  fun w => let (r, w1) := m w in (r, f w1).

Definition on_store (f : Store -> Store) (w : World) : World :=
  {| store := f (store w);
     clock := clock w;
     issued := issued w;
     trace := trace w;
     network := network w |}.

(** [await new Promise(resolve => setTimeout(resolve, ms))] *)
Definition sleep (ms : Z) (w : World) : World :=
  {| store := store w;
     clock := (clock w + ms)%Z;
     issued := issued w;
     trace := trace w ++ [Slept ms];
     network := network w |}.

(** [await fetch(url, options)] *)
Definition record_request (r : Request) (w : World) : World :=
  {| store := store w;
     clock := clock w;
     issued := S (issued w);
     trace := trace w ++ [Requested r];
     network := network w |}.

Definition fetch (r : Request) : M Response :=
  fun w =>
    match network w (issued w) r with
    | Rejected e => (Throw e, record_request r w)
    | Responded resp => (Ok resp, record_request r w)
    end.

(** ** utils/validators.js: [validateApiResponse] *)

Definition validateApiResponse (response : JsVal) : Result bool :=
  if js_not response || negb (String.eqb (typeof response) "object") then
    Throw (Error "Invalid API response format")
  else if truthy (get response "error") then
    Throw (Error (ToString (get response "error")))
  else Ok true.

(** ** services/api.js: [fetchWithRetry] and [getRiskHistory] *)

(** The body of the [try] block of one attempt. *)
Definition attempt_body (req : Request) : M JsVal :=
  response <- fetch req ;;
  if negb (ok response) then
    throw (Error ("HTTP error! status: " ++ NumberToString (status response)))
  else
    data <- lift (json response) ;;
    _ <- lift (validateApiResponse data) ;;
    ret data.

(** [Math.pow(2, attempt) * 1000], exact for the small counters of the loop. *)
Definition backoff_delay (attempt : nat) : Z := (2 ^ Z.of_nat attempt * 1000)%Z.

(** The [for] loop from the counter [attempt], with [remaining] iterations
    to go ([remaining = retries - attempt]). *)
Fixpoint fetchWithRetry_loop (req : Request) (retries remaining attempt : nat)
  : M JsVal :=
  match remaining with
  | O => ret JUndefined
  | S remaining' =>
      fun w =>
        match attempt_body req w with
        | (Ok data, w1) => (Ok data, w1)
        | (Throw e, w1) =>
            if Nat.eqb attempt (retries - 1) then
              (Throw e, on_store (setError (JStr (err_message e))) w1)
            else
              fetchWithRetry_loop req retries remaining' (S attempt)
                (sleep (backoff_delay attempt) w1)
        end
  end.

Definition fetchWithRetry (req : Request) (retries : nat) : M JsVal :=
  fetchWithRetry_loop req retries retries 0.

(** A destructured parameter with the default [null]. *)
Definition or_null (v : JsVal) : JsVal :=
  match v with
  | JUndefined => JNull
  | _ => v
  end.

(** The TypeError of destructuring the parameter when the argument is
    [null]; the text is V8's. *)
Definition TypeError_destructure : JsError := TypeError_read_of JNull "days".

(** The entries appended to [params], in the order of the source. *)
Definition history_params (days startDate endDate : JsVal)
  : list (string * JsVal) :=
  (if truthy days then [("days", days)] else [])
  ++ (if truthy startDate then [("start_date", startDate)] else [])
  ++ (if truthy endDate then [("end_date", endDate)] else [])
  ++ (if js_not days && js_not startDate && js_not endDate
      then [("days", JNum 180%float)] else []).

(** What [getRiskHistory] does with the value of [fetchWithRetry]. *)
Definition shape_response (response : JsVal) : Result JsVal :=
  if has_data_array response then Ok response
  else if isArray response then
    match _generateSummaryFromArray response with
    | Ok summary => Ok (JObj [("data", response); ("summary", summary)])
    | Throw e => Throw e
    end
  else Throw (Error "Invalid risk data format received").

Definition getRiskHistory (arg : JsVal) : M JsVal :=
  let arg := match arg with JUndefined => JObj [] | _ => arg end in
  if nullish arg then throw TypeError_destructure
  else
    let days := or_null (get arg "days") in
    let startDate := or_null (get arg "startDate") in
    let endDate := or_null (get arg "endDate") in
    fun w =>
      finally
        (response <-
           fetchWithRetry
             (mkRequest "/risk/history" (history_params days startDate endDate))
             3 ;;
         lift (shape_response response))
        (on_store (setLoading false))
        (on_store (setLoading true) w).

(** ** utils/validators.js *)

Definition isValidNumber (value : JsVal) : bool :=
  match value with
  | JNum n => negb (is_nan n) && is_finite n
  | _ => false
  end.

Definition regime_names : list string :=
  ["high"; "medium"; "low"; "RED"; "YELLOW"; "GREEN"].

(** [names.includes(v)] for a list of string constants. *)
Definition includes (names : list string) (v : JsVal) : bool :=
  match v with
  | JStr s => existsb (String.eqb s) names
  | _ => false
  end.

(** The predicate under [every] in [isValidRiskData] (formats 1 and 3). *)
Definition valid_item (item : JsVal) : bool :=
  truthy item
  && (String.eqb (typeof (get item "systemic_risk")) "number"
      || String.eqb (typeof (get item "systemic_risk_score")) "number")
  && includes regime_names
       (js_or (get item "risk_level") (get item "market_regime"))
  && String.eqb (typeof (get item "timestamp")) "string".

Definition every (p : JsVal -> bool) (v : JsVal) : bool :=
  match v with
  | JArr items => forallb p items
  | _ => false
  end.

Definition isValidSystemicRiskData (data : JsVal) : bool :=
  if js_not data || js_not (get data "success") || js_not (get data "data")
  then false
  else
    let systemicData := get data "data" in
    let hasCoreComponents :=
      forallb
        (fun component => isValidNumber (get systemicData component))
        ["Systemic"; "PCA"; "Credit"] in
    if negb hasCoreComponents then false
    else
      existsb
        (fun signal =>
           match get systemicData signal with
           | JUndefined => false
           | _ => true
           end)
        ["Quantile_Signal"; "DCC_Corr"; "HAR_ExcessVol_Z";
         "Credit_Spread_Change"; "VIX_Change"; "is_warning";
         "Composite_Risk_Score"].

Definition isValidRiskData (data : JsVal) : bool :=
  if js_not data then false
  else if truthy (get data "data") && isArray (get data "data") then
    every valid_item (get data "data")
  else if truthy (get data "success") && truthy (get data "data")
          && String.eqb (typeof (get data "data")) "object" then
    isValidSystemicRiskData data
  else if isArray data then every valid_item data
  else false.

Definition is_digit (c : ascii) : bool :=
  let n := nat_of_ascii c in
  Nat.leb 48 n && Nat.leb n 57.

(** [s.match(/^\d{4}-\d{2}-\d{2}$/)] is not [null]. *)
Definition matches_date (s : string) : bool :=
  match list_ascii_of_string s with
  | [y1; y2; y3; y4; d1; m1; m2; d2; a1; a2] =>
      is_digit y1 && is_digit y2 && is_digit y3 && is_digit y4
      && Ascii.eqb d1 "-" && is_digit m1 && is_digit m2
      && Ascii.eqb d2 "-" && is_digit a1 && is_digit a2
  | _ => false
  end.

(** [new Date(a) > new Date(b)] *)
Definition date_after (a b : JsVal) : bool :=
  ltb (DateParse (ToString b)) (DateParse (ToString a)).

Definition date_param_ok (v : JsVal) : bool :=
  match v with
  | JUndefined => true
  | JStr s => matches_date s
  | _ => false
  end.

Definition validateDateRangeParams (params : JsVal) : Result bool :=
  let params := js_or params (JObj []) in
  let days := get params "days" in
  let startDate := get params "startDate" in
  let endDate := get params "endDate" in
  if match days with
     | JUndefined => false
     | _ => negb (isValidNumber days) || leb (ToNumber days) 0%float
     end
  then Throw (Error "Days parameter must be a positive number")
  else if negb (date_param_ok startDate) then
    Throw (Error "startDate must be in YYYY-MM-DD format")
  else if negb (date_param_ok endDate) then
    Throw (Error "endDate must be in YYYY-MM-DD format")
  else if truthy startDate && truthy endDate && date_after startDate endDate
  then Throw (Error "startDate cannot be after endDate")
  else Ok true.

(** ** hooks/useRiskData.js *)

Definition normalizeRange (range : JsVal) : JsVal :=
  if nullish range then
    JObj [("days", JUndefined); ("startDate", JUndefined);
          ("endDate", JUndefined)]
  else if String.eqb (typeof range) "number" then
    JObj [("days", range); ("startDate", JUndefined); ("endDate", JUndefined)]
  else
    JObj [("days", get range "days"); ("startDate", get range "startDate");
          ("endDate", get range "endDate")].

(** [err?.message || String(err)] in the [catch] clauses. *)
Definition catch_message (err : JsError) : string :=
  if String.eqb (err_message err) "" then error_to_string err
  else err_message err.

(** What [fetchRiskHistory] does once [getRiskHistory] has settled: the rest
    of the [try] block, the [catch] and the [finally]. *)
Definition fetchRiskHistory_settle (now : Z) (r : Result JsVal) (s : Store)
  : Store :=
  let s1 :=
    match r with
    | Ok response =>
        if has_data_array response then
          setError JNull (setRiskData now response s)
        else
          setError
            (JStr (catch_message (Error "Invalid response format from API"))) s
    | Throw err => setError (JStr (catch_message err)) s
    end in
  setLoading false s1.

(** One whole call of [fetchRiskHistory], run to its end; [closure_isLoading]
    is the [isLoading] the callback closed over when it was created. *)
Definition fetchRiskHistory (closure_isLoading : bool) (rangeInput : JsVal)
  (w : World) : World :=
  let range := normalizeRange rangeInput in
  if closure_isLoading then w
  else
    let (r, w1) := getRiskHistory range (on_store (setLoading true) w) in
    on_store (fetchRiskHistory_settle (clock w1) r) w1.

(** *** [useRiskData]: the callbacks of one render and the two effects

    A render of the hook reads the store once; the callbacks and effects it
    creates close over that reading.  [in_flight] lists the calls of
    [apiService.getRiskHistory] that have issued their request and not yet
    settled, oldest first. *)

Record Closure : Type := mkClosure {
  c_daysRange : JsVal;
  c_isLoading : bool;
  c_riskHistory : JsVal
}.

Record Hook : Type := mkHook {
  h_store : Store;
  previousRangeRef : JsVal;
  in_flight : list JsVal
}.

Definition render (daysRange : JsVal) (h : Hook) : Closure :=
  {| c_daysRange := daysRange;
     c_isLoading := isLoading (h_store h);
     c_riskHistory := riskHistory (h_store h) |}.

(** [a === b] on primitives.  Arrays and objects compare by identity, which
    [JsVal] does not carry: two of them count as different references.  The
    hook compares range fields, which are numbers, date strings or absent. *)
Definition strict_eq (a b : JsVal) : bool :=
  match a, b with
  | JUndefined, JUndefined => true
  | JNull, JNull => true
  | JBool x, JBool y => Bool.eqb x y
  | JNum x, JNum y => PrimFloat.eqb x y
  | JStr x, JStr y => String.eqb x y
  | _, _ => false
  end.

(** [fetchRiskHistory] up to the first suspension: the guard, the two
    [setLoading(true)] (the hook's, then [getRiskHistory]'s) and the call of
    [fetch]. *)
Definition fetchRiskHistory_start (closure_isLoading : bool)
  (rangeInput : JsVal) (h : Hook) : Hook :=
  let range := normalizeRange rangeInput in
  if closure_isLoading then h
  else
    {| h_store := setLoading true (setLoading true (h_store h));
       previousRangeRef := previousRangeRef h;
       in_flight := in_flight h ++ [range] |}.

(** The oldest call in flight settles with [r]: [getRiskHistory]'s [finally],
    then the rest of [fetchRiskHistory]. *)
Definition fetchRiskHistory_resume (now : Z) (r : Result JsVal) (h : Hook)
  : Hook :=
  match in_flight h with
  | [] => h
  | _ :: rest =>
      {| h_store := fetchRiskHistory_settle now r (setLoading false (h_store h));
         previousRangeRef := previousRangeRef h;
         in_flight := rest |}
  end.

Definition range_changed (prev currentRange : JsVal) : bool :=
  js_not prev
  || negb (strict_eq (get prev "days") (get currentRange "days"))
  || negb (strict_eq (get prev "startDate") (get currentRange "startDate"))
  || negb (strict_eq (get prev "endDate") (get currentRange "endDate")).

(** The body of the first effect ("smart fetching"). *)
Definition rangeEffect (c : Closure) (h : Hook) : Hook :=
  let currentRange := normalizeRange (c_daysRange c) in
  if range_changed (previousRangeRef h) currentRange then
    fetchRiskHistory_start (c_isLoading c) currentRange
      {| h_store := h_store h;
         previousRangeRef := currentRange;
         in_flight := in_flight h |}
  else h.

(** [riskHistory.length === 0] *)
Definition length_is_zero (v : JsVal) : bool :=
  match v with
  | JArr [] => true
  | JStr s => String.eqb s ""
  | _ => false
  end.

(** The body of the second effect ("initial fetch on mount"). *)
Definition mountEffect (c : Closure) (h : Hook) : Hook :=
  if js_not (c_riskHistory c) || length_is_zero (c_riskHistory c) then
    fetchRiskHistory_start (c_isLoading c) (c_daysRange c) h
  else h.

(** The first render: both effects run, in the order of the source, with
    the callbacks of that render. *)
Definition mount (daysRange : JsVal) (h : Hook) : Hook :=
  let c := render daysRange h in
  mountEffect c (rangeEffect c h).

(** A later render after which the first effect runs again (its
    dependencies [daysRange] or [fetchRiskHistory] changed). *)
Definition rerender (daysRange : JsVal) (h : Hook) : Hook :=
  rangeEffect (render daysRange h) h.

(** ** hooks/useWebSocket.js *)

Inductive ReadyState : Type := CONNECTING | OPEN | CLOSING | CLOSED.

(** [sockets] holds the ready state of every [WebSocket] constructed so far,
    in order of construction; each carries the handlers [connect] gave it.
    [timers] holds the due times of the pending [setTimeout(connect, 5000)].
    [observed] lists the arguments [onMessageCallback] was called with. *)
Record Channel : Type := mkChannel {
  ws_store : Store;
  ws_clock : Z;
  socketRef : option nat;
  sockets : list ReadyState;
  timers : list Z;
  has_callback : bool;
  observed : list JsVal
}.

Definition with_store (f : Store -> Store) (ch : Channel) : Channel :=
  {| ws_store := f (ws_store ch);
     ws_clock := ws_clock ch;
     socketRef := socketRef ch;
     sockets := sockets ch;
     timers := timers ch;
     has_callback := has_callback ch;
     observed := observed ch |}.

Definition ready_of (ch : Channel) (i : nat) : option ReadyState :=
  nth_error (sockets ch) i.

Definition is_open (s : option ReadyState) : bool :=
  match s with
  | Some OPEN => true
  | _ => false
  end.

(** [connect()]; the [WebSocket] constructor is taken not to throw. *)
Definition connect (ch : Channel) : Channel :=
  if match socketRef ch with
     | Some i => is_open (ready_of ch i)
     | None => false
     end
  then ch
  else
    {| ws_store := ws_store ch;
       ws_clock := ws_clock ch;
       socketRef := Some (List.length (sockets ch));
       sockets := sockets ch ++ [CONNECTING];
       timers := timers ch;
       has_callback := has_callback ch;
       observed := observed ch |}.

Definition onopen (ch : Channel) : Channel := with_store (setError JNull) ch.

(** [data && data.timestamp && !data.error] *)
Definition message_accepted (data : JsVal) : bool :=
  truthy data && truthy (get data "timestamp") && js_not (get data "error").

(** [onmessage]; [parsed] is what [JSON.parse(event.data)] gives, a value
    or a [SyntaxError].  The observer callback is taken not to throw. *)
Definition onmessage (parsed : Result JsVal) (ch : Channel) : Channel :=
  match parsed with
  | Ok data =>
      if message_accepted data then
        {| ws_store := setRealtimeData (ws_clock ch) data (ws_store ch);
           ws_clock := ws_clock ch;
           socketRef := socketRef ch;
           sockets := sockets ch;
           timers := timers ch;
           has_callback := has_callback ch;
           observed :=
             if has_callback ch then observed ch ++ [data] else observed ch |}
      else ch
  | Throw _ =>
      with_store (setError (JStr "Failed to process WebSocket message")) ch
  end.

(** [onclose]: [setTimeout(() => connect(), 5000)] *)
Definition onclose (ch : Channel) : Channel :=
  {| ws_store := ws_store ch;
     ws_clock := ws_clock ch;
     socketRef := socketRef ch;
     sockets := sockets ch;
     timers := timers ch ++ [(ws_clock ch + 5000)%Z];
     has_callback := has_callback ch;
     observed := observed ch |}.

Definition onerror (ch : Channel) : Channel :=
  with_store (setError (JStr "WebSocket connection error")) ch.

Fixpoint set_ready (i : nat) (s : ReadyState) (l : list ReadyState)
  : list ReadyState :=
  match l, i with
  | [], _ => []
  | _ :: rest, O => s :: rest
  | x :: rest, S j => x :: set_ready j s rest
  end.

(** [socket.close()] on socket [i]: the closing handshake starts. *)
Definition close_socket (i : nat) (l : list ReadyState) : list ReadyState :=
  match nth_error l i with
  | Some CONNECTING | Some OPEN => set_ready i CLOSING l
  | _ => l
  end.

(** [disconnect()] *)
Definition disconnect (ch : Channel) : Channel :=
  match socketRef ch with
  | Some i =>
      {| ws_store := ws_store ch;
         ws_clock := ws_clock ch;
         socketRef := None;
         sockets := close_socket i (sockets ch);
         timers := timers ch;
         has_callback := has_callback ch;
         observed := observed ch |}
  | None => ch
  end.

(** What happens to a channel: the effect and its cleanup, the events the
    browser dispatches on a socket, the passing of time and the firing of
    the oldest timer. *)
Inductive WsEvent : Type :=
| Mounted
| Unmounted
| Opened (i : nat)
| Message (i : nat) (parsed : Result JsVal)
| Errored (i : nat)
| Closed (i : nat)
| Elapsed (ms : Z)
| TimerFired.

Definition set_sockets (l : list ReadyState) (ch : Channel) : Channel :=
  {| ws_store := ws_store ch;
     ws_clock := ws_clock ch;
     socketRef := socketRef ch;
     sockets := l;
     timers := timers ch;
     has_callback := has_callback ch;
     observed := observed ch |}.

(** One event; [None] when the browser cannot dispatch it in this state (an
    open event on a socket that is not connecting, a message on a socket
    that is not open, a close event on a closed socket, a timer that is not
    due). *)
Definition ws_step (ch : Channel) (e : WsEvent) : option Channel :=
  match e with
  | Mounted => Some (connect ch)
  | Unmounted => Some (disconnect ch)
  | Opened i =>
      match ready_of ch i with
      | Some CONNECTING => Some (onopen (set_sockets (set_ready i OPEN (sockets ch)) ch))
      | _ => None
      end
  | Message i parsed =>
      match ready_of ch i with
      | Some OPEN => Some (onmessage parsed ch)
      | _ => None
      end
  | Errored i =>
      match ready_of ch i with
      | Some CLOSED | None => None
      | Some _ => Some (onerror ch)
      end
  | Closed i =>
      match ready_of ch i with
      | Some CLOSED | None => None
      | Some _ => Some (onclose (set_sockets (set_ready i CLOSED (sockets ch)) ch))
      end
  | Elapsed ms =>
      if (0 <=? ms)%Z then
        Some {| ws_store := ws_store ch;
                ws_clock := (ws_clock ch + ms)%Z;
                socketRef := socketRef ch;
                sockets := sockets ch;
                timers := timers ch;
                has_callback := has_callback ch;
                observed := observed ch |}
      else None
  | TimerFired =>
      match timers ch with
      | due :: rest =>
          if (due <=? ws_clock ch)%Z then
            Some (connect
                    {| ws_store := ws_store ch;
                       ws_clock := ws_clock ch;
                       socketRef := socketRef ch;
                       sockets := sockets ch;
                       timers := rest;
                       has_callback := has_callback ch;
                       observed := observed ch |})
          else None
      | [] => None
      end
  end.

Fixpoint ws_run (ch : Channel) (es : list WsEvent) : option Channel :=
  match es with
  | [] => Some ch
  | e :: rest =>
      match ws_step ch e with
      | Some ch' => ws_run ch' rest
      | None => None
      end
  end.

Definition initialChannel (callback : bool) : Channel :=
  {| ws_store := initialStore;
     ws_clock := 0;
     socketRef := None;
     sockets := [];
     timers := [];
     has_callback := callback;
     observed := [] |}.

(** ** Reference definitions

    The statistics, the retry schedule and the shapes the properties below
    are stated with. *)










(** The events of a fetch of three attempts whose first two attempts gave
    [o0] and [o1]: a request, and after a failure a pause and the next
    request. *)
Definition schedule (req : Request) (o0 o1 : Result JsVal) : list Event :=
  match o0 with
  | Ok _ => [Requested req]
  | Throw _ =>
      match o1 with
      | Ok _ => [Requested req; Slept 1000; Requested req]
      | Throw _ =>
          [Requested req; Slept 1000; Requested req; Slept 2000; Requested req]
      end
  end.

(** The events of [k] failed attempts, counted from [attempt], and of the
    request after them: each failure is followed by its pause. *)
Fixpoint retry_trace (req : Request) (attempt k : nat) : list Event :=
  match k with
  | O => [Requested req]
  | S k' =>
      Requested req :: Slept (backoff_delay attempt)
      :: retry_trace req (S attempt) k'
  end.

(** What the [try] block of an attempt makes of an outcome of the network. *)
Definition attempt_result (o : Outcome) : Result JsVal :=
  match o with
  | Rejected e => Throw e
  | Responded response =>
      if negb (ok response) then
        Throw (Error ("HTTP error! status: " ++ NumberToString (status response)))
      else
        match json response with
        | Throw e => Throw e
        | Ok data =>
            match validateApiResponse data with
            | Throw e => Throw e
            | Ok _ => Ok data
            end
        end
  end.

(** The value of a fetch of three attempts: the first success, or else the
    error of the third attempt. *)
Definition first_success (o0 o1 o2 : Result JsVal) : Result JsVal :=
  match o0 with
  | Ok data => Ok data
  | Throw _ =>
      match o1 with
      | Ok data => Ok data
      | Throw _ => o2
      end
  end.

(** The number of requests of such a fetch. *)
Definition attempts (o0 o1 : Result JsVal) : nat :=
  match o0 with
  | Ok _ => 1
  | Throw _ =>
      match o1 with
      | Ok _ => 2
      | Throw _ => 3
      end
  end.

(** The request [getRiskHistory] builds from its argument. *)
Definition history_request (arg : JsVal) : Request :=
  mkRequest "/risk/history"
    (history_params (or_null (get arg "days")) (or_null (get arg "startDate"))
       (or_null (get arg "endDate"))).

(** An object with an array-valued [data] field. *)
Definition object_with_data_array (v : JsVal) : bool :=
  match v with
  | JObj fs => isArray (lookup "data" fs)
  | _ => false
  end.

(** ** Inputs of the closed instances

    An engine, observations, worlds and transports for the closed instances
    at the end of the file.  None of those instances makes the engine
    convert between a string and a number, so the two conversions chosen
    here do not matter to them.  The date parser and the bound on spread
    arguments are V8's. *)

Definition example_StringToNumber (s : string) : float := nan.
Definition example_NumberToString (x : float) : string := "NaN".

(** The number of the integer [z], exact below 2^53. *)
Definition float_of_Z (z : Z) : float :=
  if (0 <=? z)%Z then PrimFloat.of_uint63 (Uint63.of_Z z)
  else PrimFloat.opp (PrimFloat.of_uint63 (Uint63.of_Z (- z))).

(** The days from 1970-01-01 to the day [d] of the month [m] of the year
    [y] in the proleptic Gregorian calendar. *)
Definition days_from_civil (y m d : Z) : Z :=
  let y := if (m <=? 2)%Z then (y - 1)%Z else y in
  let era := (y / 400)%Z in
  let yoe := (y - era * 400)%Z in
  let mp := ((m + 9) mod 12)%Z in
  let doy := ((153 * mp + 2) / 5 + d - 1)%Z in
  let doe := (yoe * 365 + yoe / 4 - yoe / 100 + doy)%Z in
  (era * 146097 + doe - 719468)%Z.

Definition digit_value (c : ascii) : Z := (Z.of_nat (nat_of_ascii c) - 48)%Z.

(** [new Date(s).getTime()] on the date-only strings dddd-dd-dd, the only
    ones the validator hands to the parser, as V8 has it: a month outside
    01..12 or a day outside 01..31 gives an Invalid Date (NaN); a day past
    the end of its month runs on into the next month; the time is midnight
    UTC. *)
Definition example_DateParse (s : string) : float :=
  match list_ascii_of_string s with
  | [y1; y2; y3; y4; _; m1; m2; _; d1; d2] =>
      if matches_date s then
        let y :=
          (1000 * digit_value y1 + 100 * digit_value y2 + 10 * digit_value y3
           + digit_value y4)%Z in
        let m := (10 * digit_value m1 + digit_value m2)%Z in
        let d := (10 * digit_value d1 + digit_value d2)%Z in
        if ((1 <=? m) && (m <=? 12) && (1 <=? d) && (d <=? 31))%Z then
          float_of_Z (86400000 * (days_from_civil y m 1 + d - 1))
        else nan
      else nan
  | _ => nan
  end.

(** V8 with its default stack takes of the order of 120000 spread
    arguments. *)
Definition example_spread_limit : N := 120000.

Definition observation (risk : float) (level date : string) : JsVal :=
  JObj
    [ ("systemic_risk", JNum risk); ("risk_level", JStr level);
      ("timestamp", JStr date); ("date", JStr date) ].


Definition world_of (net : nat -> Request -> Outcome) : World :=
  {| store := initialStore; clock := 0; issued := 0; trace := [];
     network := net |}.

Definition delivers (body : JsVal) : Outcome :=
  Responded {| ok := true; status := 200%float; json := Ok body |}.

Definition unreachable : Outcome :=
  Rejected (mkError "TypeError" "Failed to fetch").

Definition request_180 : Request :=
  mkRequest "/risk/history" [("days", JNum 180%float)].

(** A transport that fails twice and then delivers an empty batch. *)
Definition flaky (n : nat) (r : Request) : Outcome :=
  match n with
  | 0 | 1 => unreachable
  | _ => delivers (JObj [("data", JArr [])])
  end.

(** A transport that fails once and then delivers [body]. *)
Definition fails_once_then (body : JsVal) (n : nat) (r : Request) : Outcome :=
  match n with
  | 0 => unreachable
  | _ => delivers body
  end.

(** The channel of a hook that has mounted and whose socket has opened. *)
Definition connectedChannel : Channel :=
  {| ws_store := initialStore;
     ws_clock := 0;
     socketRef := Some 0;
     sockets := [OPEN];
     timers := [];
     has_callback := false;
     observed := [] |}.

(** The hook before its first render, on the initial store. *)
Definition freshHook : Hook :=
  {| h_store := initialStore; previousRangeRef := JNull; in_flight := [] |}.

(** ** Further functions of the store *)

(** The actions that write the store. *)
Inductive Action : Type :=
| SetRiskData (now : Z) (data : JsVal)
| SetRealtimeData (now : Z) (realtimeData : JsVal)
| SetSummaryData (summary : JsVal)
| SetCurrentMetrics (now : Z) (metrics : JsVal)
| SetLoading (loading : bool)
| SetError (e : JsVal)
| Reset.

Definition act (s : Store) (a : Action) : Store :=
  match a with
  | SetRiskData now data => setRiskData now data s
  | SetRealtimeData now realtimeData => setRealtimeData now realtimeData s
  | SetSummaryData summary => setSummaryData summary s
  | SetCurrentMetrics now metrics => setCurrentMetrics now metrics s
  | SetLoading loading => setLoading loading s
  | SetError e => setError e s
  | Reset => reset s
  end.

(** What [getDashboardMetrics] returns. *)
Record DashboardMetrics : Type := mkDashboardMetrics {
  dm_systemicRisk : JsVal;
  dm_riskLevel : JsVal;
  dm_compositeScore : JsVal;
  dm_harExcessVol : JsVal;
  dm_dccCorrelation : JsVal;
  dm_quantileSignal : JsVal;
  dm_isWarning : JsVal;
  dm_dataPoints : JsVal;
  dm_lastUpdated : option Z
}.

(** [getDashboardMetrics()]: the only getter that reads [currentMetrics]
    without a guard. *)
Definition getDashboardMetrics (s : Store) : Result DashboardMetrics :=
  let currentMetrics := currentMetrics s in
  if nullish currentMetrics then
    Throw (TypeError_read_of currentMetrics "systemic_risk")
  else
    Ok {| dm_systemicRisk := get currentMetrics "systemic_risk";
          dm_riskLevel := get currentMetrics "risk_level";
          dm_compositeScore := get currentMetrics "composite_risk_score";
          dm_harExcessVol := get currentMetrics "har_excess_vol";
          dm_dccCorrelation := get currentMetrics "dcc_correlation";
          dm_quantileSignal := get currentMetrics "quantile_signal";
          dm_isWarning :=
            js_or (get currentMetrics "composite_warning") (JBool false);
          dm_dataPoints := get currentMetrics "data_points";
          dm_lastUpdated := lastUpdated s |}.

(** The stores the two hooks can produce: the initial store, and what an
    event of the stream or a call of [fetchRiskHistory] makes of such a
    store. *)
Inductive hook_reachable : Store -> Prop :=
| reach_initial : hook_reachable initialStore
| reach_stream (ch ch' : Channel) (e : WsEvent) :
    hook_reachable (ws_store ch) -> ws_step ch e = Some ch' ->
    hook_reachable (ws_store ch')
| reach_fetch (closure_isLoading : bool) (rangeInput : JsVal) (w : World) :
    hook_reachable (store w) ->
    hook_reachable (store (fetchRiskHistory closure_isLoading rangeInput w)).

(** The pauses of a fetch with [retries] attempts that all fail: 1000 ms
    doubled after each attempt but the last. *)
Definition total_backoff (retries : nat) : Z :=
  ((2 ^ Z.of_nat (retries - 1) - 1) * 1000)%Z.

(** ** Further functions of utils/validators.js *)

(** [v !== undefined] *)
Definition defined (v : JsVal) : bool :=
  match v with
  | JUndefined => false
  | _ => true
  end.

(** One field of [getDataQualityScore]: [acc] is the pair of [score] and
    [maxScore]. *)
Definition tally (present valid : bool) (weight : float) (acc : float * float)
  : float * float :=
  if present then
    (if valid then PrimFloat.add (fst acc) weight else fst acc,
     PrimFloat.add (snd acc) weight)
  else acc.

Definition quality_signals : list string :=
  ["pca_component"; "credit_component"; "quantile_signal";
   "dcc_correlation"; "har_excess_vol_z"; "composite_risk_score"].

Definition getDataQualityScore (data : JsVal) : float :=
  if js_not data then 0%float
  else
    let acc := (0%float, 0%float) in
    let acc :=
      tally (defined (get data "systemic_risk"))
        (isValidNumber (get data "systemic_risk")) 20%float acc in
    let acc :=
      tally (defined (get data "risk_level"))
        (includes ["high"; "medium"; "low"] (get data "risk_level"))
        20%float acc in
    let acc :=
      tally (defined (get data "timestamp"))
        (match get data "timestamp" with
         | JStr s => negb (String.eqb s "")
         | _ => false
         end)
        20%float acc in
    let acc :=
      fold_left
        (fun acc signal =>
           tally (defined (get data signal)) (isValidNumber (get data signal))
             5%float acc)
        quality_signals acc in
    if ltb 0%float (snd acc)
    then PrimFloat.mul (PrimFloat.div (fst acc) (snd acc)) 100%float
    else 0%float.

(** [x.toFixed(digits)] is the engine's. *)
Variable toFixed : float -> nat -> string.

(** The own enumerable properties an object spread copies: the fields of an
    object, the elements of an array under their indices. *)
Definition index_key (n : nat) : string :=
  NilEmpty.string_of_uint (Nat.to_uint n).

Fixpoint indexed (n : nat) (items : list JsVal) : list (string * JsVal) :=
  match items with
  | [] => []
  | x :: rest => (index_key n, x) :: indexed (S n) rest
  end.

Definition spread (v : JsVal) : list (string * JsVal) :=
  match v with
  | JObj fs => fs
  | JArr items => indexed 0 items
  | _ => []
  end.

(** [o[k] = v] for a key the object has: the field keeps its place. *)
Fixpoint set_field (k : string) (v : JsVal) (fs : list (string * JsVal))
  : list (string * JsVal) :=
  match fs with
  | [] => []
  | (k', v') :: rest =>
      if String.eqb k k' then (k', v) :: rest
      else (k', v') :: set_field k v rest
  end.

Definition sanitize_numeric_fields : list string :=
  ["systemic_risk"; "systemic_mean"; "systemic_std"; "pca_component";
   "credit_component"; "quantile_signal"; "dcc_correlation";
   "har_excess_vol_z"; "credit_spread_change"; "vix_change";
   "composite_risk_score"].

Definition sanitize_boolean_fields : list string :=
  ["is_warning"; "corr_exceeds_bootstrap"].

(** [isValidNumber(v) ? Number(v.toFixed(6)) : null] *)
Definition sanitize_number (v : JsVal) : JsVal :=
  match v with
  | JNum n =>
      if isValidNumber v then JNum (StringToNumber (toFixed n 6)) else JNull
  | _ => JNull
  end.

Definition sanitize_field (f : JsVal -> JsVal) (fs : list (string * JsVal))
  (field : string) : list (string * JsVal) :=
  if defined (lookup field fs) then set_field field (f (lookup field fs)) fs
  else fs.

Definition sanitizeRiskData (data : JsVal) : JsVal :=
  if js_not data || negb (String.eqb (typeof data) "object") then data
  else
    let sanitized := spread data in
    let sanitized :=
      fold_left (sanitize_field sanitize_number) sanitize_numeric_fields
        sanitized in
    let sanitized :=
      fold_left (sanitize_field (fun v => JBool (truthy v)))
        sanitize_boolean_fields sanitized in
    JObj sanitized.

(** [isValidEnhancedSnapshot] *)
Definition isValidEnhancedSnapshot (snapshot : JsVal) : bool :=
  if js_not snapshot || negb (String.eqb (typeof snapshot) "object") then false
  else
    let hasRequiredCore :=
      forallb (fun field => negb (nullish (get snapshot field)))
        ["systemic_risk"; "risk_level"; "timestamp"; "start_date"; "end_date"] in
    if negb hasRequiredCore then false
    else if negb (includes ["high"; "medium"; "low"] (get snapshot "risk_level"))
    then false
    else
      forallb
        (fun field =>
           negb (defined (get snapshot field))
           || isValidNumber (get snapshot field))
        ["systemic_risk"; "systemic_mean"; "systemic_std"].

(** A [days] the validator lets through: absent, or a finite number above
    zero. *)
Definition days_acceptable (v : JsVal) : bool :=
  match v with
  | JUndefined => true
  | JNum n => isValidNumber v && negb (leb n 0%float)
  | _ => false
  end.

(** The inputs [validateDateRangeParams] is meant to let through, said
    without the code's tests: a number of days that is finite and above
    zero, and a date of four digits, a dash, two digits, a dash and two
    digits. *)
Definition positive_finite (n : float) : Prop :=
  exists m e, Prim2SF n = S754_finite false m e.

Definition decimal_digits : list ascii :=
  ["0"; "1"; "2"; "3"; "4"; "5"; "6"; "7"; "8"; "9"]%char.

Definition date_form (s : string) : Prop :=
  exists y1 y2 y3 y4 m1 m2 d1 d2,
    s = String y1 (String y2 (String y3 (String y4 (String "-"
          (String m1 (String m2 (String "-"
             (String d1 (String d2 EmptyString)))))))))
    /\ Forall (fun c => In c decimal_digits) [y1; y2; y3; y4; m1; m2; d1; d2].

Definition days_given (v : JsVal) : Prop :=
  v = JUndefined \/ exists n, v = JNum n /\ positive_finite n.

Definition date_given (v : JsVal) : Prop :=
  v = JUndefined \/ exists s, v = JStr s /\ date_form s.

(** ** Further getters of the store *)

(** The engine's order on strings (by code units), used when both operands
    of a comparison are strings. *)
Variable StringLess : string -> string -> bool.






(** [history.map(d => d.k)]: the read throws on a [null] element. *)
Fixpoint map_field (k : string) (history : list JsVal) : Result (list JsVal) :=
  match history with
  | [] => Ok []
  | d :: rest =>
      if nullish d then Throw (TypeError_read_of d k)
      else
        match map_field k rest with
        | Ok vs => Ok (get d k :: vs)
        | Throw e => Throw e
        end
  end.

(** [getVisualizationData(type)] *)
Definition getVisualizationData (type : JsVal) (s : Store) : Result JsVal :=
  let currentMetrics := currentMetrics s in
  if js_not currentMetrics then Ok JNull
  else
    match type with
    | JStr "risk-cascade" =>
        Ok (JObj
              [ ("systemic", get currentMetrics "systemic_risk");
                ("pca",
                  opt_get (get currentMetrics "component_analysis") "current_pca");
                ("credit",
                  opt_get (get currentMetrics "component_analysis")
                    "current_credit");
                ("quantile", get currentMetrics "quantile_signal");
                ("dcc", get currentMetrics "dcc_correlation");
                ("har", get currentMetrics "har_excess_vol");
                ("composite", get currentMetrics "composite_risk_score");
                ("warnings", get currentMetrics "composite_warning") ])
    | JStr "component-breakdown" =>
        Ok (JObj
              [ ("components",
                  JObj
                    [ ("pca",
                        opt_get (get currentMetrics "component_analysis")
                          "current_pca");
                      ("credit",
                        opt_get (get currentMetrics "component_analysis")
                          "current_credit");
                      ("systemic", get currentMetrics "systemic_risk") ]);
                ("contributions",
                  js_or (get currentMetrics "component_analysis") (JObj []));
                ("correlations",
                  js_or
                    (opt_get (get currentMetrics "component_analysis")
                       "correlation_matrix")
                    (JObj [])) ])
    | JStr "signal-timeline" =>
        match riskHistory s with
        | JArr history =>
        match map_field "date" history,
              map_field "systemic_risk" history,
              map_field "quantile_signal" history,
              map_field "dcc_correlation" history,
              map_field "har_excess_vol" history,
              map_field "composite_risk_score" history,
              map_field "is_warning" history
        with
        | Ok timestamps, Ok systemic, Ok quantile, Ok dcc, Ok har,
          Ok composite, Ok warnings =>
            Ok (JObj
                  [ ("timestamps", JArr timestamps);
                    ("signals",
                      JObj
                        [ ("systemic", JArr systemic);
                          ("quantile", JArr quantile);
                          ("dcc", JArr dcc);
                          ("har", JArr har);
                          ("composite", JArr composite) ]);
                    ("warnings", JArr warnings) ])
        | Throw e, _, _, _, _, _, _ => Throw e
        | _, Throw e, _, _, _, _, _ => Throw e
        | _, _, Throw e, _, _, _, _ => Throw e
        | _, _, _, Throw e, _, _, _ => Throw e
        | _, _, _, _, Throw e, _, _ => Throw e
        | _, _, _, _, _, Throw e, _ => Throw e
        | _, _, _, _, _, _, Throw e => Throw e
        end
        | _ => Throw (mkError "TypeError" "history.map is not a function")
        end
    | _ => Ok currentMetrics
    end.

(** ** App.jsx: [calculatePeriodMetrics] *)







(** ** Further definitions for the hooks *)

(** A range field that [===] relates to itself: a primitive other than
    NaN. *)
Definition plain_field (v : JsVal) : bool :=
  match v with
  | JUndefined | JNull | JBool _ | JStr _ => true
  | JNum n => negb (is_nan n)
  | JArr _ | JObj _ => false
  end.

(** The events of [count] drops of the connection, each followed by the
    reconnection: the close event of socket [i], 5000 ms, the timer, and
    the open event of the socket constructed next. *)
Fixpoint drops (i count : nat) : list WsEvent :=
  match count with
  | O => []
  | S count' =>
      Closed i :: Elapsed 5000 :: TimerFired :: Opened (S i)
      :: drops (S i) count'
  end.

(** ** Further inputs of the closed instances *)



(** A store with a snapshot and the given history. *)
Definition store_with_history (history : list JsVal) : Store :=
  setRiskData 0
    (JObj [("data", JArr history);
           ("current_metrics", JObj [("systemic_risk", JNum 1%float)])])
    initialStore.


(** * Properties *)

(** ** The order of numbers *)



Lemma SFleb_refl (x : spec_float) : x <> S754_nan -> SFleb x x = true.
Proof.
  unfold SFleb. destruct x as [s | s | | s m e]; cbn [SFcompare];
    try congruence; try (destruct s; reflexivity).
  intros _. destruct s; rewrite Z.compare_refl;
    change (Pos.compare_cont Eq m m) with (Pos.compare m m);
    rewrite Pos.compare_refl; reflexivity.
Qed.



Lemma not_nan_spec (x : float) : is_nan x = false -> Prim2SF x <> S754_nan.
Proof.
  unfold is_nan. rewrite eqb_spec. intros H E. rewrite E in H. discriminate.
Qed.

Lemma leb_refl (x : float) : is_nan x = false -> leb x x = true.
Proof. intros H. rewrite leb_spec. now apply SFleb_refl, not_nan_spec. Qed.














(** ** Summary synthesis *)






















(** ** Retry with backoff *)

Lemma attempt_body_result (req : Request) (w : World) :
  attempt_body req w =
  (attempt_result (network w (issued w) req), record_request req w).
Proof.
  unfold attempt_body, bind, fetch, attempt_result, lift, throw, ret.
  destruct (network w (issued w) req) as [e | response]; [ reflexivity | ].
  destruct (ok response); cbn [negb]; [ | reflexivity ].
  destruct (json response) as [data | e]; [ | reflexivity ].
  destruct (validateApiResponse data); reflexivity.
Qed.

(** The three iterations of the loop, written out. *)
Lemma fetchWithRetry_three (req : Request) (w : World) :
  let out := fun k => attempt_result (network w (k + issued w) req) in
  fetchWithRetry req 3 w =
  match out 0 with
  | Ok data => (Ok data, record_request req w)
  | Throw _ =>
      let w1 := sleep 1000 (record_request req w) in
      match out 1 with
      | Ok data => (Ok data, record_request req w1)
      | Throw _ =>
          let w2 := sleep 2000 (record_request req w1) in
          match out 2 with
          | Ok data => (Ok data, record_request req w2)
          | Throw e =>
              (Throw e,
               on_store (setError (JStr (err_message e))) (record_request req w2))
          end
      end
  end.
Proof.
  intros out. unfold fetchWithRetry. cbn [fetchWithRetry_loop].
  rewrite attempt_body_result.
  change (attempt_result (network w (issued w) req)) with (out 0).
  destruct (out 0) as [data | e0]; [ reflexivity | ].
  cbn [Nat.eqb Nat.sub]. rewrite attempt_body_result.
  change (attempt_result _) with (out 1).
  destruct (out 1) as [data | e1]; [ reflexivity | ].
  cbn [Nat.eqb Nat.sub]. rewrite attempt_body_result.
  change (attempt_result _) with (out 2).
  destruct (out 2) as [data | e2]; reflexivity.
Qed.

Lemma normalizeRange_not_nullish (range : JsVal) :
  exists fs, normalizeRange range = JObj fs.
Proof.
  unfold normalizeRange.
  destruct (nullish range); [ eauto | ].
  destruct (String.eqb (typeof range) "number"); eauto.
Qed.

Lemma getRiskHistory_object (fs : list (string * JsVal)) (w : World) :
  getRiskHistory (JObj fs) w =
  finally
    (response <- fetchWithRetry (history_request (JObj fs)) 3 ;;
     lift (shape_response response))
    (on_store (setLoading false))
    (on_store (setLoading true) w).
Proof. reflexivity. Qed.

(** C1.  A fetch makes at most three attempts, one after the other: the
    events it adds to the trace are a request and, after the failure of
    attempt 0 a pause of 1000 ms, after the failure of attempt 1 a pause of
    2000 ms, each followed by the next request.  A transport that fails
    twice and then succeeds gives the success after exactly three requests.
    When all three attempts fail, the error of the last one is written to
    the store's [error] field and thrown to the caller, and [riskHistory]
    is as it was, also after the hook's [fetchRiskHistory] has handled the
    failure. *)
Theorem fetch_retry_schedule (req : Request) (rangeInput : JsVal) (w : World) :
  (let out := fun k => attempt_result (network w (k + issued w) req) in
   let r := fst (fetchWithRetry req 3 w) in
   let w' := snd (fetchWithRetry req 3 w) in
   trace w' = (trace w ++ schedule req (out 0) (out 1))%list
   /\ issued w' = attempts (out 0) (out 1) + issued w
   /\ issued w' <= 3 + issued w
   /\ r = first_success (out 0) (out 1) (out 2)
   /\ riskHistory (store w') = riskHistory (store w)
   /\ (forall e0 e1 data,
         out 0 = Throw e0 -> out 1 = Throw e1 -> out 2 = Ok data ->
         r = Ok data /\ issued w' = 3 + issued w /\ store w' = store w)
   /\ (forall e0 e1 e2,
         out 0 = Throw e0 -> out 1 = Throw e1 -> out 2 = Throw e2 ->
         r = Throw e2 /\ issued w' = 3 + issued w
         /\ error (store w') = JStr (err_message e2)))
  /\ (let range := normalizeRange rangeInput in
      let out :=
        fun k =>
          attempt_result (network w (k + issued w) (history_request range)) in
      let api := getRiskHistory range (on_store (setLoading true) w) in
      let w' := fetchRiskHistory false rangeInput w in
      trace w' = (trace w ++ schedule (history_request range) (out 0) (out 1))%list
      /\ issued w' <= 3 + issued w
      /\ forall e0 e1 e2,
          out 0 = Throw e0 -> out 1 = Throw e1 -> out 2 = Throw e2 ->
          fst api = Throw e2
          /\ error (store (snd api)) = JStr (err_message e2)
          /\ riskHistory (store (snd api)) = riskHistory (store w)
          /\ error (store w') = JStr (catch_message e2)
          /\ riskHistory (store w') = riskHistory (store w)).
Proof.
  split.
  - pose proof (fetchWithRetry_three req w) as E. cbv beta zeta in E |- *.
    rewrite E. clear E.
    destruct (attempt_result (network w (0 + issued w) req)) as [d0 | e0];
      [ | destruct (attempt_result (network w (1 + issued w) req)) as [d1 | e1];
          [ | destruct (attempt_result (network w (2 + issued w) req))
                as [d2 | e2] ] ];
      cbn -[Nat.add]; rewrite <- ?app_assoc; cbn [app];
      repeat split; try reflexivity; try lia;
      intros; repeat split; try reflexivity; congruence.
  - intros range out api w'. subst api w' out range.
    unfold fetchRiskHistory. cbv beta zeta.
    destruct (normalizeRange_not_nullish rangeInput) as [fs ->].
    rewrite getRiskHistory_object. unfold finally, bind.
    rewrite fetchWithRetry_three. cbv beta zeta.
    change (issued (on_store (setLoading true) (on_store (setLoading true) w)))
      with (issued w).
    change (network (on_store (setLoading true) (on_store (setLoading true) w)))
      with (network w).
    set (hreq := history_request (JObj fs)).
    destruct (attempt_result (network w (0 + issued w) hreq)) as [d0 | e0];
      [ | destruct (attempt_result (network w (1 + issued w) hreq)) as [d1 | e1];
          [ | destruct (attempt_result (network w (2 + issued w) hreq))
                as [d2 | e2] ] ];
      unfold lift;
      cbn -[Nat.add shape_response fetchRiskHistory_settle];
      rewrite <- ?app_assoc; cbn [app];
      (split; [ reflexivity | split; [ lia | ] ]);
      intros x0 x1 x2 H0 H1 H2; try discriminate.
    inversion H2; subst x2. repeat split; reflexivity.
Qed.

(** ** What is retried and what is terminal *)

Lemma attempt_result_responded (response : Response) (data : JsVal) :
  ok response = true -> json response = Ok data ->
  attempt_result (Responded response) =
  match validateApiResponse data with
  | Throw e => Throw e
  | Ok _ => Ok data
  end.
Proof. intros Hok Hjson. cbn [attempt_result]. now rewrite Hok, Hjson. Qed.

(** [getRiskHistory] over the three iterations of the loop. *)
Lemma getRiskHistory_three (fs : list (string * JsVal)) (w : World) :
  let req := history_request (JObj fs) in
  let out := fun k => attempt_result (network w (k + issued w) req) in
  let w0 := on_store (setLoading true) w in
  getRiskHistory (JObj fs) w =
  match out 0 with
  | Ok data =>
      (shape_response data, on_store (setLoading false) (record_request req w0))
  | Throw _ =>
      let w1 := sleep 1000 (record_request req w0) in
      match out 1 with
      | Ok data =>
          (shape_response data,
           on_store (setLoading false) (record_request req w1))
      | Throw _ =>
          let w2 := sleep 2000 (record_request req w1) in
          match out 2 with
          | Ok data =>
              (shape_response data,
               on_store (setLoading false) (record_request req w2))
          | Throw e =>
              (Throw e,
               on_store (setLoading false)
                 (on_store (setError (JStr (err_message e)))
                    (record_request req w2)))
          end
      end
  end.
Proof.
  intros req out w0. rewrite getRiskHistory_object. unfold finally, bind.
  rewrite fetchWithRetry_three. cbv beta zeta.
  change (issued (on_store (setLoading true) w)) with (issued w).
  change (network (on_store (setLoading true) w)) with (network w).
  fold req. fold w0.
  change (attempt_result (network w (0 + issued w) req)) with (out 0).
  change (attempt_result (network w (1 + issued w) req)) with (out 1).
  change (attempt_result (network w (2 + issued w) req)) with (out 2).
  destruct (out 0) as [d0 | e0]; [ reflexivity | ].
  destruct (out 1) as [d1 | e1]; [ reflexivity | ].
  destruct (out 2) as [d2 | e2]; reflexivity.
Qed.


(** What [getRiskHistory] makes of a body that passed
    [validateApiResponse], by its shape. *)
Lemma shape_response_cases (data : JsVal) :
  (has_data_array data = true -> shape_response data = Ok data)
  /\ (forall items,
        data = JArr items ->
        shape_response data =
        match _generateSummaryFromArray data with
        | Ok summary => Ok (JObj [("data", data); ("summary", summary)])
        | Throw e => Throw e
        end)
  /\ (has_data_array data = false -> isArray data = false ->
      shape_response data = Throw (Error "Invalid risk data format received")).
Proof.
  unfold shape_response. repeat split.
  - now intros ->.
  - now intros items ->.
  - now intros -> ->.
Qed.

(** C3, as amended.  Whatever is thrown inside an attempt is retried, body
    validation included.  Take the attempt [k] (0, 1 or 2) of a fetch whose
    earlier attempts failed, and let the transport answer it with a decoded
    body.  When [validateApiResponse] rejects the body (it is not an
    object, or carries a truthy [error] field) the attempt has failed: after
    attempt 0 or 1 the pause follows and the next request is issued, after
    attempt 2 the error is stored and thrown.  When the body passes, the
    fetch ends with this request, whatever happens next: an enhanced body is
    returned, an array is returned with its synthesized summary or the fetch
    fails with what the synthesis throws, and any other body fails with
    "Invalid risk data format received". *)
Theorem body_validation_retry_or_terminal
  (fs : list (string * JsVal)) (w : World) (k : nat) (response : Response)
  (data : JsVal) :
  let req := history_request (JObj fs) in
  let out := fun j => attempt_result (network w (j + issued w) req) in
  let r := fst (getRiskHistory (JObj fs) w) in
  let w' := snd (getRiskHistory (JObj fs) w) in
  k < 3 ->
  (forall j, j < k -> exists e, out j = Throw e) ->
  network w (k + issued w) req = Responded response ->
  ok response = true -> json response = Ok data ->
  match validateApiResponse data with
  | Throw e =>
      out k = Throw e
      /\ (k < 2 ->
          exists rest,
            trace w' = (trace w ++ retry_trace req 0 (S k) ++ rest)%list)
      /\ (k = 2 ->
          r = Throw e /\ issued w' = 3 + issued w
          /\ error (store w') = JStr (err_message e))
  | Ok _ =>
      trace w' = (trace w ++ retry_trace req 0 k)%list
      /\ issued w' = S k + issued w
      /\ (has_data_array data = true -> r = Ok data)
      /\ (forall items,
            data = JArr items ->
            r = match _generateSummaryFromArray data with
                | Ok summary =>
                    Ok (JObj [("data", data); ("summary", summary)])
                | Throw e => Throw e
                end)
      /\ (has_data_array data = false -> isArray data = false ->
          r = Throw (Error "Invalid risk data format received"))
  end.
Proof.
  intros req out r w' Hk Hfailed Hnet Hok Hjson.
  assert (out k =
          match validateApiResponse data with
          | Throw e => Throw e
          | Ok _ => Ok data
          end) as Hout.
  { unfold out. rewrite Hnet. now apply attempt_result_responded. }
  pose proof (getRiskHistory_three fs w) as E. cbv beta zeta in E.
  fold req in E. subst r w'. rewrite E. clear E.
  assert (forall j, j < k -> match out j with Ok _ => False | Throw _ => True end)
    as Hfailed'.
  { intros j Hj. destruct (Hfailed j Hj) as [e ->]. exact I. }
  unfold out in *. clear out.
  destruct k as [| [| [| k]]]; [ | | | lia ].
  - rewrite Hout.
    destruct (validateApiResponse data) as [b | e].
    + cbn -[Nat.add shape_response]. rewrite <- ?app_assoc.
      split; [ reflexivity | split; [ reflexivity | ] ].
      apply shape_response_cases.
    + split; [ reflexivity | ]. split; [ | discriminate ].
      intros _.
      destruct (attempt_result (network w (1 + issued w) req)) as [d1 | e1];
        [ | destruct (attempt_result (network w (2 + issued w) req))
              as [d2 | e2] ];
        cbn -[Nat.add shape_response backoff_delay];
        rewrite <- ?app_assoc; cbn [app]; eexists; reflexivity.
  - pose proof (Hfailed' 0 ltac:(lia)) as H0.
    destruct (attempt_result (network w (0 + issued w) req)) as [d0 | e0];
      [ contradiction | ].
    rewrite Hout.
    destruct (validateApiResponse data) as [b | e].
    + cbn -[Nat.add shape_response]. rewrite <- ?app_assoc.
      split; [ reflexivity | split; [ reflexivity | ] ].
      apply shape_response_cases.
    + split; [ reflexivity | ]. split; [ | discriminate ].
      intros _.
      destruct (attempt_result (network w (2 + issued w) req)) as [d2 | e2];
        cbn -[Nat.add shape_response backoff_delay];
        rewrite <- ?app_assoc; cbn [app]; eexists; reflexivity.
  - pose proof (Hfailed' 0 ltac:(lia)) as H0.
    pose proof (Hfailed' 1 ltac:(lia)) as H1.
    destruct (attempt_result (network w (0 + issued w) req)) as [d0 | e0];
      [ contradiction | ].
    destruct (attempt_result (network w (1 + issued w) req)) as [d1 | e1];
      [ contradiction | ].
    rewrite Hout.
    destruct (validateApiResponse data) as [b | e].
    + cbn -[Nat.add shape_response]. rewrite <- ?app_assoc.
      split; [ reflexivity | split; [ reflexivity | ] ].
      apply shape_response_cases.
    + split; [ reflexivity | ]. split; [ lia | ].
      intros _. repeat split.
Qed.

(** ** Range arguments *)


(** The validator of the repository, which the fetch operation does not
    call, rejects a [days] that is present and not a positive finite
    number. *)
Lemma validateDateRangeParams_rejects_days (fs : list (string * JsVal)) :
  lookup "days" fs <> JUndefined ->
  isValidNumber (lookup "days" fs) = false
  \/ leb (ToNumber (lookup "days" fs)) 0%float = true ->
  validateDateRangeParams (JObj fs)
  = Throw (Error "Days parameter must be a positive number").
Proof.
  intros Hdef Hbad. unfold validateDateRangeParams.
  cbn [js_or truthy get].
  destruct (lookup "days" fs) eqn:Hdays; try congruence;
    destruct Hbad as [-> | Hle]; cbn [negb orb]; try reflexivity;
    rewrite Hle, orb_true_r; reflexivity.
Qed.


(** ** Batches with invalid items *)

Lemma has_data_array_object (v : JsVal) :
  has_data_array v = object_with_data_array v.
Proof.
  unfold has_data_array, object_with_data_array.
  destruct v as [ | | b | n | s | items | fs ]; cbn [get truthy isArray];
    rewrite ?andb_false_r, ?andb_false_l; try reflexivity.
  cbn [andb]. destruct (lookup "data" fs); cbn [isArray];
    rewrite ?andb_false_r; reflexivity.
Qed.






(** ** The store *)

(** C10.  On an argument that is neither an object with an array-valued
    [data] field nor an array, [setRiskData] sets [riskHistory] to the empty
    array, [summaryData] to [null], [currentMetrics] to the empty object and
    [error] to "Invalid data format": what was loaded before is gone. *)
Theorem setRiskData_invalid_resets (now : Z) (data : JsVal) (s : Store) :
  object_with_data_array data = false -> isArray data = false ->
  riskHistory (setRiskData now data s) = JArr []
  /\ summaryData (setRiskData now data s) = JNull
  /\ currentMetrics (setRiskData now data s) = JObj []
  /\ error (setRiskData now data s) = JStr "Invalid data format".
Proof.
  intros Hobj Harr. unfold setRiskData.
  rewrite has_data_array_object, Hobj, Harr. repeat split; reflexivity.
Qed.

(** C8, as amended.  A successful mutation of the history ([setRiskData] on
    an enhanced object or an array) sets [lastUpdated] and clears [error].
    A mutation of the current snapshot ([setRealtimeData],
    [setCurrentMetrics]) sets [lastUpdated] and replaces the snapshot, and
    leaves [error] as it was; so do [setLoading] and [setSummaryData], which
    do not set [lastUpdated] either. *)
Theorem store_mutations_timestamp_and_error (now : Z) (data : JsVal) (s : Store) :
  (object_with_data_array data || isArray data = true ->
   lastUpdated (setRiskData now data s) = Some now
   /\ error (setRiskData now data s) = JNull)
  /\ (lastUpdated (setRealtimeData now data s) = Some now
      /\ currentMetrics (setRealtimeData now data s) = data
      /\ error (setRealtimeData now data s) = error s)
  /\ (lastUpdated (setCurrentMetrics now data s) = Some now
      /\ currentMetrics (setCurrentMetrics now data s) = data
      /\ error (setCurrentMetrics now data s) = error s)
  /\ (forall loading,
        error (setLoading loading s) = error s
        /\ lastUpdated (setLoading loading s) = lastUpdated s)
  /\ (error (setSummaryData data s) = error s
      /\ lastUpdated (setSummaryData data s) = lastUpdated s).
Proof.
  split; [ | repeat split; reflexivity ].
  unfold setRiskData. rewrite has_data_array_object.
  destruct (object_with_data_array data); [ split; reflexivity | ].
  cbn [orb]. intros ->. split; reflexivity.
Qed.

(** ** The push stream *)

(** C6, as amended.  An inbound message is forwarded to the store as a
    wholesale replacement of the snapshot (and to the observer callback, if
    one is registered) if and only if it decodes as JSON to a truthy value
    whose [timestamp] field is truthy and whose [error] field is falsy or
    absent.  A message that does not decode sets the store's [error]; any
    other message changes nothing.  In no case does the handler touch the
    connection: the socket reference, the sockets and the timers stay. *)
Theorem onmessage_forwards_accepted (parsed : Result JsVal) (ch : Channel) :
  socketRef (onmessage parsed ch) = socketRef ch
  /\ sockets (onmessage parsed ch) = sockets ch
  /\ timers (onmessage parsed ch) = timers ch
  /\ match parsed with
     | Ok data =>
         if truthy data && truthy (get data "timestamp")
            && negb (truthy (get data "error"))
         then
           ws_store (onmessage parsed ch)
             = setRealtimeData (ws_clock ch) data (ws_store ch)
           /\ currentMetrics (ws_store (onmessage parsed ch)) = data
           /\ observed (onmessage parsed ch)
              = if has_callback ch then (observed ch ++ [data])%list
                else observed ch
         else onmessage parsed ch = ch
     | Throw _ =>
         ws_store (onmessage parsed ch)
           = setError (JStr "Failed to process WebSocket message") (ws_store ch)
         /\ currentMetrics (ws_store (onmessage parsed ch))
            = currentMetrics (ws_store ch)
         /\ observed (onmessage parsed ch) = observed ch
     end.
Proof.
  destruct parsed as [data | e]; cbn [onmessage].
  - unfold message_accepted, js_not.
    destruct (truthy data && truthy (get data "timestamp")
              && negb (truthy (get data "error")));
      repeat split; reflexivity.
  - repeat split; reflexivity.
Qed.

(** ** The range effect and the fetches in flight *)

Lemma normalizeRange_idempotent (range : JsVal) :
  normalizeRange (normalizeRange range) = normalizeRange range.
Proof.
  unfold normalizeRange.
  destruct (nullish range); [ reflexivity | ].
  destruct (String.eqb (typeof range) "number"); reflexivity.
Qed.

(** A repeated identical range starts nothing. *)
Lemma rangeEffect_same_range (c : Closure) (h : Hook) :
  range_changed (previousRangeRef h) (normalizeRange (c_daysRange c)) = false ->
  rangeEffect c h = h.
Proof. intros H. unfold rangeEffect. now rewrite H. Qed.

(** A changed range starts one fetch when the render saw no fetch loading. *)
Lemma rangeEffect_changed_idle (c : Closure) (h : Hook) :
  range_changed (previousRangeRef h) (normalizeRange (c_daysRange c)) = true ->
  c_isLoading c = false ->
  in_flight (rangeEffect c h)
    = (in_flight h ++ [normalizeRange (c_daysRange c)])%list
  /\ previousRangeRef (rangeEffect c h) = normalizeRange (c_daysRange c).
Proof.
  intros H Hidle. unfold rangeEffect, fetchRiskHistory_start.
  rewrite H, Hidle, normalizeRange_idempotent. split; reflexivity.
Qed.

(** A changed range seen while a fetch is loading is recorded as the last
    range and starts nothing: the trigger is neither queued nor coalesced. *)
Lemma rangeEffect_changed_loading (c : Closure) (h : Hook) :
  range_changed (previousRangeRef h) (normalizeRange (c_daysRange c)) = true ->
  c_isLoading c = true ->
  in_flight (rangeEffect c h) = in_flight h
  /\ previousRangeRef (rangeEffect c h) = normalizeRange (c_daysRange c).
Proof.
  intros H Hbusy. unfold rangeEffect, fetchRiskHistory_start.
  rewrite H, Hbusy. split; reflexivity.
Qed.

(** The two views of [fetchRiskHistory] agree: started on a hook with
    nothing in flight and resumed with what [getRiskHistory] settles to, it
    leaves the store that the call run to its end leaves. *)
Lemma start_then_resume (rangeInput : JsVal) (w : World) (h : Hook) :
  h_store h = store w -> in_flight h = [] ->
  let api := getRiskHistory (normalizeRange rangeInput)
               (on_store (setLoading true) w) in
  h_store
    (fetchRiskHistory_resume (clock (snd api)) (fst api)
       (fetchRiskHistory_start false rangeInput h))
  = store (fetchRiskHistory false rangeInput w).
Proof.
  intros Hstore Hidle api. subst api.
  unfold fetchRiskHistory, fetchRiskHistory_start, fetchRiskHistory_resume.
  cbn [in_flight h_store]. rewrite Hidle, Hstore. cbn [app].
  destruct (normalizeRange_not_nullish rangeInput) as [fs ->].
  rewrite getRiskHistory_object. unfold finally, bind.
  rewrite fetchWithRetry_three. cbv beta zeta.
  set (hreq := history_request (JObj fs)).
  set (w0 := on_store (setLoading true) (on_store (setLoading true) w)).
  destruct (attempt_result (network w0 (0 + issued w0) hreq)) as [d0 | e0];
    [ | destruct (attempt_result (network w0 (1 + issued w0) hreq)) as [d1 | e1];
        [ | destruct (attempt_result (network w0 (2 + issued w0) hreq))
              as [d2 | e2] ] ];
    unfold lift; cbn -[shape_response];
    try (destruct (shape_response _) as [response | e];
         unfold fetchRiskHistory_settle, setRiskData;
         [ destruct (has_data_array response) | ]);
    reflexivity.
Qed.

(** C5, at the failing inputs.  On the first render of a hook whose store
    is idle and empty and whose [previousRangeRef] is still [null], both
    effects pass the guard of the same render and each starts a fetch: two
    calls of [getRiskHistory] for the same range are in flight at once. *)
Theorem mount_two_fetches (daysRange : JsVal) (h : Hook) :
  isLoading (h_store h) = false ->
  truthy (previousRangeRef h) = false ->
  riskHistory (h_store h) = JArr [] ->
  in_flight (mount daysRange h)
    = (in_flight h ++ [normalizeRange daysRange; normalizeRange daysRange])%list.
Proof.
  intros Hidle Hprev Hempty.
  unfold mount, mountEffect, rangeEffect, render, range_changed, js_not.
  cbn [c_daysRange c_isLoading c_riskHistory].
  rewrite Hidle, Hprev, Hempty. cbn [negb orb truthy length_is_zero].
  unfold fetchRiskHistory_start. rewrite normalizeRange_idempotent.
  cbn [in_flight]. now rewrite <- app_assoc.
Qed.

(** ** Reconnection *)

(** A close event schedules one call of [connect], due 5000 ms later,
    whatever happened before. *)
Lemma close_schedules_reconnect (ch ch' : Channel) (i : nat) :
  ws_step ch (Closed i) = Some ch' ->
  timers ch' = (timers ch ++ [(ws_clock ch + 5000)%Z])%list.
Proof.
  cbn [ws_step]. destruct (ready_of ch i) as [[ | | | ] | ];
    intros H; inversion H; reflexivity.
Qed.

(** [disconnect] cancels no timer. *)
Lemma disconnect_keeps_timers (ch : Channel) :
  timers (disconnect ch) = timers ch.
Proof. unfold disconnect. destruct (socketRef ch); reflexivity. Qed.

Lemma nth_error_set_ready (l : list ReadyState) (i : nat) (s x : ReadyState) :
  nth_error l i = Some x -> nth_error (set_ready i s l) i = Some s.
Proof.
  revert i. induction l as [| y l IH]; intros [| i]; cbn; try discriminate.
  - reflexivity.
  - apply IH.
Qed.

Lemma set_ready_twice (l : list ReadyState) (i : nat) (s s' : ReadyState) :
  set_ready i s (set_ready i s' l) = set_ready i s l.
Proof.
  revert i. induction l as [| y l IH]; intros [| i]; cbn; try reflexivity.
  now rewrite IH.
Qed.

(** C7, at the failing inputs.  The consumer unmounts while the socket the
    hook refers to is open and no reconnect is pending.  The close event of
    that socket still schedules a reconnect, and 5 seconds later [connect]
    constructs a new socket and makes the hook refer to it. *)
Theorem teardown_does_not_stop_reconnection (ch : Channel) (i : nat) :
  socketRef ch = Some i -> ready_of ch i = Some OPEN -> timers ch = [] ->
  exists ch',
    ws_run ch [Unmounted; Closed i; Elapsed 5000; TimerFired] = Some ch'
    /\ sockets ch' = (set_ready i CLOSED (sockets ch) ++ [CONNECTING])%list
    /\ socketRef ch' = Some (List.length (set_ready i CLOSED (sockets ch)))
    /\ timers ch' = [].
Proof.
  intros Href Hopen Htimers. unfold ready_of in Hopen.
  cbn [ws_run ws_step]. unfold disconnect. rewrite Href.
  unfold ready_of. cbn [sockets]. unfold close_socket. rewrite Hopen.
  rewrite (nth_error_set_ready _ _ CLOSING _ Hopen).
  cbn [onclose set_sockets sockets timers ws_clock]. rewrite Htimers.
  cbn [app Z.leb]. rewrite set_ready_twice.
  replace (0 <=? 5000)%Z with true by reflexivity.
  cbn [timers ws_clock]. rewrite Z.leb_refl.
  unfold connect. cbn [socketRef sockets timers].
  eexists. repeat split.
Qed.

(** * Further properties *)

(** ** The store under its actions *)

Lemma has_data_array_is_array (data : JsVal) :
  has_data_array data = true -> isArray (get data "data") = true.
Proof.
  unfold has_data_array. intros H. apply andb_true_iff in H. apply H.
Qed.

Lemma act_keeps_array (a : Action) (s : Store) :
  isArray (riskHistory s) = true -> isArray (riskHistory (act s a)) = true.
Proof.
  intros Hs. destruct a; cbn [act]; try exact Hs; try reflexivity.
  unfold setRiskData.
  destruct (has_data_array data) eqn:Hshape.
  - now apply has_data_array_is_array.
  - destruct (isArray data) eqn:Harr; [ exact Harr | reflexivity ].
Qed.

(** X1.  Whatever actions are applied to the store, and with whatever
    arguments, [riskHistory] stays an array: a malformed argument of
    [setRiskData] empties it, it never stores the argument. *)
Theorem history_stays_array (actions : list Action) (s : Store) :
  isArray (riskHistory s) = true ->
  isArray (riskHistory (fold_left act actions s)) = true.
Proof.
  revert s. induction actions as [| a actions IH]; intros s Hs; cbn [fold_left].
  - exact Hs.
  - apply IH. now apply act_keeps_array.
Qed.

(** ** The shape of a fetch *)

(** What a call of [fetchRiskHistory] that passed its guard leaves in the
    store: the settlement of some result on a store that differs from the
    one before only in [isLoading] and [error]. *)
Lemma fetch_store_shape (rangeInput : JsVal) (w : World) :
  exists (now : Z) (r : Result JsVal) (s0 : Store),
    store (fetchRiskHistory false rangeInput w)
    = fetchRiskHistory_settle now r s0
    /\ riskHistory s0 = riskHistory (store w)
    /\ summaryData s0 = summaryData (store w)
    /\ currentMetrics s0 = currentMetrics (store w)
    /\ lastUpdated s0 = lastUpdated (store w).
Proof.
  unfold fetchRiskHistory.
  destruct (normalizeRange_not_nullish rangeInput) as [fs ->].
  rewrite getRiskHistory_object. unfold finally, bind.
  rewrite fetchWithRetry_three. cbv beta zeta.
  set (hreq := history_request (JObj fs)).
  set (w0 := on_store (setLoading true) (on_store (setLoading true) w)).
  destruct (attempt_result (network w0 (0 + issued w0) hreq)) as [d0 | e0];
    [ | destruct (attempt_result (network w0 (1 + issued w0) hreq)) as [d1 | e1];
        [ | destruct (attempt_result (network w0 (2 + issued w0) hreq))
              as [d2 | e2] ] ];
    unfold lift; cbn -[shape_response fetchRiskHistory_settle];
    do 3 eexists; (split; [ reflexivity | repeat split ]).
Qed.

(** X2.  A call of [fetchRiskHistory] that passed its guard leaves
    [isLoading = false], whether the fetch succeeded, failed after its
    retries or failed on the shape of the body; so does [getRiskHistory] on
    every argument object.  A call stopped by the guard leaves the store as
    it is. *)
Theorem loading_flag_released
  (rangeInput : JsVal) (fs : list (string * JsVal)) (w : World) :
  isLoading (store (fetchRiskHistory false rangeInput w)) = false
  /\ isLoading (store (snd (getRiskHistory (JObj fs) w))) = false
  /\ fetchRiskHistory true rangeInput w = w.
Proof.
  split; [ | split; [ | reflexivity ] ].
  - destruct (fetch_store_shape rangeInput w) as (now & r & s0 & -> & _).
    reflexivity.
  - rewrite getRiskHistory_object. unfold finally.
    destruct (bind _ _ _) as [r w1]. reflexivity.
Qed.

(** ** The stores the hooks reach *)

Lemma truthy_not_nullish (v : JsVal) : truthy v = true -> nullish v = false.
Proof. destruct v; cbn; congruence. Qed.

Lemma or_object_not_nullish (v : JsVal) : nullish (js_or v (JObj [])) = false.
Proof.
  unfold js_or. destruct (truthy v) eqn:H; [ | reflexivity ].
  now apply truthy_not_nullish.
Qed.

Lemma settle_keeps_metrics (now : Z) (r : Result JsVal) (s : Store) :
  nullish (currentMetrics s) = false ->
  nullish (currentMetrics (fetchRiskHistory_settle now r s)) = false.
Proof.
  intros Hs. unfold fetchRiskHistory_settle.
  destruct r as [response | e]; [ | exact Hs ].
  destruct (has_data_array response) eqn:Hshape; [ | exact Hs ].
  unfold setRiskData. rewrite Hshape. apply or_object_not_nullish.
Qed.

Lemma ws_step_keeps_metrics (ch ch' : Channel) (e : WsEvent) :
  ws_step ch e = Some ch' ->
  nullish (currentMetrics (ws_store ch)) = false ->
  nullish (currentMetrics (ws_store ch')) = false.
Proof.
  intros Hstep Hch. destruct e; cbn [ws_step] in Hstep.
  - inversion Hstep; subst. unfold connect.
    destruct (match socketRef ch with Some _ => _ | None => _ end); exact Hch.
  - inversion Hstep; subst. unfold disconnect.
    destruct (socketRef ch); exact Hch.
  - destruct (ready_of ch i) as [[ | | | ] | ]; inversion Hstep; subst.
    exact Hch.
  - destruct (ready_of ch i) as [[ | | | ] | ]; inversion Hstep; subst.
    destruct parsed as [data | err]; cbn [onmessage]; [ | exact Hch ].
    unfold message_accepted.
    destruct (truthy data) eqn:Hdata; cbn [andb]; [ | exact Hch ].
    destruct (truthy (get data "timestamp") && js_not (get data "error"));
      [ | exact Hch ].
    cbn. now apply truthy_not_nullish.
  - destruct (ready_of ch i) as [[ | | | ] | ]; inversion Hstep; subst;
      exact Hch.
  - destruct (ready_of ch i) as [[ | | | ] | ]; inversion Hstep; subst;
      exact Hch.
  - destruct (0 <=? ms)%Z; inversion Hstep; subst. exact Hch.
  - destruct (timers ch) as [| due rest]; [ discriminate | ].
    destruct (due <=? ws_clock ch)%Z; inversion Hstep; subst.
    unfold connect. cbn [socketRef sockets].
    destruct (match socketRef ch with Some _ => _ | None => _ end); exact Hch.
Qed.

Lemma reachable_metrics_not_nullish (s : Store) :
  hook_reachable s -> nullish (currentMetrics s) = false.
Proof.
  induction 1 as [| ch ch' e _ IH Hstep | b rangeInput w _ IH].
  - reflexivity.
  - exact (ws_step_keeps_metrics _ _ _ Hstep IH).
  - destruct b; [ exact IH | ].
    destruct (fetch_store_shape rangeInput w) as (now & r & s0 & -> & _ & _ & Hm & _).
    apply settle_keeps_metrics. now rewrite Hm.
Qed.

(** X3.  In every store the two hooks can reach from the initial one, by
    any events of the stream and any fetches, [currentMetrics] is neither
    [null] nor [undefined]; so [getDashboardMetrics], which reads it without
    a guard, does not throw there.  (It does throw once [setCurrentMetrics]
    has stored [null].) *)
Theorem dashboard_metrics_never_throw (s : Store) :
  hook_reachable s ->
  nullish (currentMetrics s) = false
  /\ (exists m, getDashboardMetrics s = Ok m)
  /\ (forall now s',
        getDashboardMetrics (setCurrentMetrics now JNull s')
        = Throw (TypeError_read_of JNull "systemic_risk")).
Proof.
  intros Hs. pose proof (reachable_metrics_not_nullish s Hs) as Hm.
  split; [ exact Hm | split ].
  - unfold getDashboardMetrics. rewrite Hm. eauto.
  - reflexivity.
Qed.

(** ** The retry loop for any number of attempts *)

Lemma pow2_succ (n : nat) :
  (2 ^ Z.of_nat (S n) = 2 * 2 ^ Z.of_nat n)%Z.
Proof. rewrite Nat2Z.inj_succ. apply Z.pow_succ_r. lia. Qed.

Lemma pow2_le (a b : nat) :
  a <= b -> (2 ^ Z.of_nat a <= 2 ^ Z.of_nat b)%Z.
Proof. intros H. apply Z.pow_le_mono_r; lia. Qed.

Lemma loop_all_fail (req : Request) (retries : nat) :
  forall (remaining attempt : nat) (w : World),
    attempt + remaining = retries -> 1 <= remaining ->
    (forall k, k < remaining ->
       exists e, attempt_result (network w (k + issued w) req) = Throw e) ->
    exists e w',
      fetchWithRetry_loop req retries remaining attempt w = (Throw e, w')
      /\ attempt_result (network w (remaining - 1 + issued w) req) = Throw e
      /\ issued w' = remaining + issued w
      /\ clock w' =
         (clock w
          + (2 ^ Z.of_nat (retries - 1) - 2 ^ Z.of_nat attempt) * 1000)%Z
      /\ store w' = setError (JStr (err_message e)) (store w)
      /\ network w' = network w.
Proof.
  induction remaining as [| remaining IH]; intros attempt w Hsum Hpos Hfail;
    [ lia | ].
  cbn [fetchWithRetry_loop]. rewrite attempt_body_result.
  destruct (Hfail 0 ltac:(lia)) as [e0 He0]. cbn [Nat.add] in He0.
  rewrite He0.
  destruct remaining as [| remaining'].
  - replace (Nat.eqb attempt (retries - 1)) with true
      by (symmetry; apply Nat.eqb_eq; lia).
    exists e0, (on_store (setError (JStr (err_message e0)))
                  (record_request req w)).
    replace (retries - 1) with attempt by lia.
    cbn. repeat split; try assumption. lia.
  - replace (Nat.eqb attempt (retries - 1)) with false
      by (symmetry; apply Nat.eqb_neq; lia).
    destruct (IH (S attempt) (sleep (backoff_delay attempt) (record_request req w)))
      as (e & w' & Hrun & Hlast & Hissued & Hclock & Hstore & Hnet).
    + lia.
    + lia.
    + intros k Hk. cbn [network issued sleep record_request].
      rewrite Nat.add_succ_r. apply (Hfail (S k)). lia.
    + exists e, w'. cbn [network issued clock store sleep record_request] in *.
      rewrite Hrun. repeat split; try assumption.
      * replace (S (S remaining') - 1 + issued w)
          with (S remaining' - 1 + S (issued w)) by lia. exact Hlast.
      * lia.
      * rewrite Hclock. unfold backoff_delay. rewrite pow2_succ. lia.
Qed.

(** X4.  For every bound [retries >= 1]: when each of the [retries]
    attempts fails, [fetchWithRetry] issues exactly [retries] requests,
    pauses 1000 ms doubled after each attempt but the last, in total
    (2^(retries-1) - 1) * 1000 ms, writes the message of the last error to
    the store's [error] and throws that error; nothing else of the store
    changes. *)
Theorem retries_exhausted (req : Request) (retries : nat) (w : World) :
  1 <= retries ->
  (forall k, k < retries ->
     exists e, attempt_result (network w (k + issued w) req) = Throw e) ->
  exists e w',
    fetchWithRetry req retries w = (Throw e, w')
    /\ attempt_result (network w (retries - 1 + issued w) req) = Throw e
    /\ issued w' = retries + issued w
    /\ clock w' = (clock w + total_backoff retries)%Z
    /\ store w' = setError (JStr (err_message e)) (store w).
Proof.
  intros Hpos Hfail.
  destruct (loop_all_fail req retries retries 0 w) as
    (e & w' & Hrun & Hlast & Hissued & Hclock & Hstore & _); auto.
  exists e, w'. unfold fetchWithRetry, total_backoff.
  repeat split; assumption.
Qed.

Lemma loop_bounds (req : Request) (retries : nat) :
  forall (remaining attempt : nat) (w : World),
    attempt + remaining = retries ->
    let w' := snd (fetchWithRetry_loop req retries remaining attempt w) in
    issued w' <= remaining + issued w
    /\ (clock w <= clock w')%Z
    /\ (clock w' <=
        clock w
        + (2 ^ Z.of_nat (retries - 1) - 2 ^ Z.of_nat (Nat.min attempt (retries - 1)))
          * 1000)%Z
    /\ riskHistory (store w') = riskHistory (store w)
    /\ currentMetrics (store w') = currentMetrics (store w).
Proof.
  induction remaining as [| remaining IH]; intros attempt w Hsum w'; subst w'.
  - cbn. repeat split; try lia.
    pose proof (pow2_le (Nat.min attempt (retries - 1)) (retries - 1)
                  ltac:(lia)). lia.
  - cbn [fetchWithRetry_loop]. rewrite attempt_body_result.
    pose proof (pow2_le (Nat.min attempt (retries - 1)) (retries - 1)
                  ltac:(lia)) as Hle.
    destruct (attempt_result (network w (issued w) req)) as [data | e].
    + cbn. repeat split; lia.
    + destruct (Nat.eqb attempt (retries - 1)) eqn:Hlast.
      * cbn. repeat split; lia.
      * apply Nat.eqb_neq in Hlast.
        destruct (IH (S attempt)
                    (sleep (backoff_delay attempt) (record_request req w))
                    ltac:(lia))
          as (Hi & Hc1 & Hc2 & Hh & Hm).
        cbn [network issued clock store sleep record_request] in *.
        assert (0 < backoff_delay attempt)%Z as Hdelay.
        { unfold backoff_delay.
          pose proof (Z.pow_pos_nonneg 2 (Z.of_nat attempt)). lia. }
        repeat split; try assumption; try lia.
        replace (Nat.min (S attempt) (retries - 1)) with (S attempt) in Hc2
          by lia.
        replace (Nat.min attempt (retries - 1)) with attempt by lia.
        unfold backoff_delay in *. rewrite pow2_succ in Hc2. lia.
Qed.

(** X5.  For every bound [retries] and every transport, [fetchWithRetry]
    issues at most [retries] requests and pauses at most
    (2^(retries-1) - 1) * 1000 ms in total; it touches neither the history
    nor the snapshot.  With [retries = 0] it issues no request and returns
    [undefined] instead of failing. *)
Theorem retry_bounds (req : Request) (retries : nat) (w : World) :
  issued (snd (fetchWithRetry req retries w)) <= retries + issued w
  /\ (clock w <= clock (snd (fetchWithRetry req retries w))
      <= clock w + total_backoff retries)%Z
  /\ riskHistory (store (snd (fetchWithRetry req retries w)))
     = riskHistory (store w)
  /\ currentMetrics (store (snd (fetchWithRetry req retries w)))
     = currentMetrics (store w)
  /\ fetchWithRetry req 0 w = (Ok JUndefined, w).
Proof.
  destruct (loop_bounds req retries retries 0 w eq_refl)
    as (Hi & Hc1 & Hc2 & Hh & Hm).
  unfold fetchWithRetry, total_backoff.
  change (Nat.min 0 (retries - 1)) with 0 in Hc2. cbn [Z.of_nat Z.pow] in Hc2.
  repeat split; assumption.
Qed.

(** ** From the range of the hook to the request *)

(** X6.  What [useRiskData] asks the server for, by the range it is given:
    an object's truthy [days], [startDate] and [endDate]; a truthy number as
    [days]; and for everything else (no range, [null], the numbers 0 and
    NaN, a string such as "90", a boolean, an array) the default
    [days = 180]. *)
Theorem request_of_range (rangeInput : JsVal) :
  history_request (normalizeRange rangeInput)
  = match rangeInput with
    | JObj fs => history_request (JObj fs)
    | JNum n =>
        mkRequest "/risk/history"
          [("days", if truthy (JNum n) then JNum n else JNum 180%float)]
    | _ => mkRequest "/risk/history" [("days", JNum 180%float)]
    end.
Proof.
  destruct rangeInput as [ | | b | n | s | items | fs ]; try reflexivity.
  unfold normalizeRange, history_request, history_params, js_not.
  cbn [nullish typeof String.eqb Ascii.eqb Bool.eqb get lookup or_null truthy
       negb andb app].
  destruct (negb (is_zero n || is_nan n)); reflexivity.
Qed.

(** ** The validators *)

(** The guards of [validateDateRangeParams], one by one. *)
Lemma validateDateRangeParams_guards (params : JsVal) :
  let p := js_or params (JObj []) in
  validateDateRangeParams params = Ok true <->
  days_acceptable (get p "days") = true
  /\ date_param_ok (get p "startDate") = true
  /\ date_param_ok (get p "endDate") = true
  /\ truthy (get p "startDate") && truthy (get p "endDate")
     && date_after (get p "startDate") (get p "endDate") = false.
Proof.
  intros p. unfold validateDateRangeParams. fold p.
  assert (match get p "days" with
          | JUndefined => false
          | _ => negb (isValidNumber (get p "days"))
                 || leb (ToNumber (get p "days")) 0%float
          end = negb (days_acceptable (get p "days"))) as ->.
  { destruct (get p "days") as [ | | b | n | s | items | fs ];
      try reflexivity.
    cbn [days_acceptable ToNumber ToPrimitive].
    now rewrite negb_andb, negb_involutive. }
  destruct (days_acceptable (get p "days")); cbn [negb];
    [ | split; [ discriminate | intros (H & _); discriminate ] ].
  destruct (date_param_ok (get p "startDate")); cbn [negb];
    [ | split; [ discriminate | intros (_ & H & _); discriminate ] ].
  destruct (date_param_ok (get p "endDate")); cbn [negb];
    [ | split; [ discriminate | intros (_ & _ & H & _); discriminate ] ].
  destruct (truthy (get p "startDate") && truthy (get p "endDate")
            && date_after (get p "startDate") (get p "endDate"));
    (split; [ intros H | intros (_ & _ & _ & H) ]);
    try discriminate; try reflexivity.
  repeat split.
Qed.

Lemma validateDateRangeParams_true_or_throws (params : JsVal) :
  validateDateRangeParams params = Ok true
  \/ exists e, validateDateRangeParams params = Throw e.
Proof.
  unfold validateDateRangeParams.
  repeat match goal with
         | |- context [if ?c then _ else _] => destruct c; eauto
         end.
Qed.

(** Comparisons with NaN are false. *)
Lemma SFeqb_refl_or_nan (f : spec_float) : SFeqb f f = true \/ f = S754_nan.
Proof.
  destruct f as [s | s | | s m e]; unfold SFeqb, SFcompare; auto.
  - left. destruct s; reflexivity.
  - left. destruct s; rewrite Z.compare_refl, Pos.compare_refl; reflexivity.
Qed.

Lemma is_nan_spec (x : float) : is_nan x = true -> Prim2SF x = S754_nan.
Proof.
  unfold is_nan. rewrite eqb_spec. intros H.
  destruct (SFeqb_refl_or_nan (Prim2SF x)) as [Heq | Hnan]; [ | exact Hnan ].
  rewrite Heq in H. discriminate.
Qed.

Lemma ltb_nan_r (x y : float) : is_nan y = true -> ltb x y = false.
Proof.
  intros H. rewrite ltb_spec, (is_nan_spec y H). unfold SFltb, SFcompare.
  destruct (Prim2SF x); reflexivity.
Qed.

Lemma ltb_nan_l (x y : float) : is_nan x = true -> ltb x y = false.
Proof.
  intros H. rewrite ltb_spec, (is_nan_spec x H). reflexivity.
Qed.

Lemma leb_nan_r (x y : float) : is_nan y = true -> leb x y = false.
Proof.
  intros H. rewrite leb_spec, (is_nan_spec y H). unfold SFleb, SFcompare.
  destruct (Prim2SF x); reflexivity.
Qed.

Lemma leb_nan_l (x y : float) : is_nan x = true -> leb x y = false.
Proof.
  intros H. rewrite leb_spec, (is_nan_spec x H). reflexivity.
Qed.

Lemma matches_date_not_empty (s : string) : matches_date s = true -> s <> "".
Proof. intros H ->. discriminate. Qed.

(** [isValidNumber(n) && !(n <= 0)] holds of the finite numbers above zero
    and of no other. *)
Lemma positive_finite_spec (n : float) :
  isValidNumber (JNum n) && negb (leb n 0%float) = true <-> positive_finite n.
Proof.
  cbn [isValidNumber]. unfold is_finite, is_infinity, is_nan.
  rewrite !eqb_spec, abs_spec, leb_spec.
  change (Prim2SF 0%float) with (S754_zero false).
  change (Prim2SF infinity) with (S754_infinity false).
  unfold positive_finite.
  destruct (SFeqb_refl_or_nan (Prim2SF n)) as [Hrefl | Hnan].
  - rewrite Hrefl.
    destruct (Prim2SF n) as [s | s | | s m e]; cbn; split;
      try discriminate;
      try (intros (m' & e' & H); discriminate);
      try destruct s; try discriminate; eauto;
      intros (m' & e' & H); discriminate.
  - rewrite Hnan. cbn. split; [ discriminate | ].
    intros (m & e & H). discriminate.
Qed.

Lemma is_digit_spec (c : ascii) : is_digit c = true <-> In c decimal_digits.
Proof.
  split.
  - destruct c as [[] [] [] [] [] [] [] []]; cbn; try discriminate; intros _;
      repeat first [ left; reflexivity | right ].
  - intros H. cbn in H.
    repeat (destruct H as [<- | H]; [ reflexivity | ]). destruct H.
Qed.

(** The pattern of the validator matches the strings of four digits, a
    dash, two digits, a dash and two digits, and no other. *)
Lemma matches_date_spec (s : string) : matches_date s = true <-> date_form s.
Proof.
  unfold matches_date, date_form. split.
  - destruct s as [| c1 [| c2 [| c3 [| c4 [| c5 [| c6 [| c7 [| c8 [| c9 [| c10
      [| c11 s]]]]]]]]]]]; cbn [list_ascii_of_string]; try discriminate.
    intros H.
    repeat match type of H with
           | (_ && _) = true =>
               let H' := fresh "H" in
               apply andb_prop in H; destruct H as [H H']
           end.
    repeat match goal with
           | E : Ascii.eqb _ _ = true |- _ => apply Ascii.eqb_eq in E; subst
           | E : is_digit _ = true |- _ => apply is_digit_spec in E
           end.
    exists c1, c2, c3, c4, c6, c7, c9, c10.
    split; [ reflexivity | ].
    repeat (apply Forall_cons; [ assumption | ]). apply Forall_nil.
  - intros (y1 & y2 & y3 & y4 & m1 & m2 & d1 & d2 & -> & Hall).
    cbn [list_ascii_of_string].
    repeat match goal with
           | H : Forall _ (_ :: _) |- _ =>
               let Hc := fresh "Hc" in
               inversion H as [| ? ? Hc ?]; subst; clear H;
               apply is_digit_spec in Hc; rewrite Hc
           end.
    reflexivity.
Qed.

Lemma days_acceptable_spec (v : JsVal) :
  days_acceptable v = true <-> days_given v.
Proof.
  unfold days_given.
  destruct v as [ | | b | n | s | items | fs ]; cbn [days_acceptable];
    try (split; [ discriminate | intros [H | (n' & H & _)]; discriminate ]).
  - split; auto.
  - rewrite positive_finite_spec. split.
    + eauto.
    + intros [H | (n' & H & Hn)]; [ discriminate | ].
      now inversion H; subst.
Qed.

Lemma date_param_ok_spec (v : JsVal) :
  date_param_ok v = true <-> date_given v.
Proof.
  unfold date_given.
  destruct v as [ | | b | n | s | items | fs ]; cbn [date_param_ok];
    try (split; [ discriminate | intros [H | (s' & H & _)]; discriminate ]).
  - split; auto.
  - rewrite matches_date_spec. split.
    + eauto.
    + intros [H | (s' & H & Hs)]; [ discriminate | ].
      now inversion H; subst.
Qed.

Lemma dates_in_order_spec (a b : JsVal) :
  date_param_ok a = true -> date_param_ok b = true ->
  truthy a && truthy b && date_after a b = false <->
  (forall s e, a = JStr s -> b = JStr e ->
     ltb (DateParse e) (DateParse s) = false).
Proof.
  intros Ha Hb.
  destruct a as [ | | ? | ? | s | ? | ? ]; try discriminate;
    [ split; [ discriminate | reflexivity ] | ].
  destruct b as [ | | ? | ? | e | ? | ? ]; try discriminate;
    [ split; [ discriminate | intros _; cbn [truthy];
                               now rewrite andb_false_r ] | ].
  cbn [date_param_ok] in Ha, Hb. cbn [truthy].
  apply matches_date_not_empty, String.eqb_neq in Ha, Hb.
  rewrite Ha, Hb. cbn [negb andb]. unfold date_after. cbn [ToString].
  split.
  - intros H s' e' Hs He. now inversion Hs; inversion He; subst.
  - intros H. now apply H.
Qed.

(** X7.  [validateDateRangeParams] returns [true] exactly when [days] is
    absent or a finite number above zero, [startDate] and [endDate] are each
    absent or made of four digits, a dash, two digits, a dash and two
    digits, and, when both dates are given, the engine does not parse the
    first to a later time than the second; in every other case it throws.
    [null] counts as given, so it is rejected for each of the three
    fields. *)
Theorem validateDateRangeParams_accepts (params : JsVal) :
  let p := js_or params (JObj []) in
  (validateDateRangeParams params = Ok true <->
   days_given (get p "days")
   /\ date_given (get p "startDate")
   /\ date_given (get p "endDate")
   /\ (forall s e,
         get p "startDate" = JStr s -> get p "endDate" = JStr e ->
         ltb (DateParse e) (DateParse s) = false))
  /\ (validateDateRangeParams params = Ok true
      \/ exists e, validateDateRangeParams params = Throw e)
  /\ ~ days_given JNull /\ ~ date_given JNull.
Proof.
  intros p. split; [ | split; [ apply validateDateRangeParams_true_or_throws | ] ].
  - pose proof (validateDateRangeParams_guards params) as G.
    cbv zeta in G. fold p in G. rewrite G. clear G.
    rewrite days_acceptable_spec, !date_param_ok_spec.
    split.
    + intros (Hd & Hs & He & Horder). repeat split; try assumption.
      apply dates_in_order_spec; try assumption;
        now apply date_param_ok_spec.
    + intros (Hd & Hs & He & Horder). repeat split; try assumption.
      apply dates_in_order_spec; try assumption;
        now apply date_param_ok_spec.
  - split.
    + intros [H | (n & H & _)]; discriminate.
    + intros [H | (s & H & _)]; discriminate.
Qed.

(** X8.  The validator checks the form of a date, not the calendar: two
    strings of the form dddd-dd-dd are accepted as a range whenever the
    engine cannot parse one of them (an Invalid Date), since a comparison
    with NaN is false. *)
Theorem unparsed_dates_accepted (startDate endDate : string) :
  matches_date startDate = true -> matches_date endDate = true ->
  is_nan (DateParse startDate) = true \/ is_nan (DateParse endDate) = true ->
  validateDateRangeParams
    (JObj [("startDate", JStr startDate); ("endDate", JStr endDate)])
  = Ok true.
Proof.
  intros Hs He Hnan. unfold validateDateRangeParams.
  cbn [js_or truthy get lookup String.eqb Ascii.eqb Bool.eqb date_param_ok
       negb].
  rewrite Hs, He. cbn [negb]. unfold date_after. cbn [ToString].
  replace (ltb (DateParse endDate) (DateParse startDate)) with false.
  - now rewrite andb_false_r.
  - symmetry. destruct Hnan; [ now apply ltb_nan_r | now apply ltb_nan_l ].
Qed.

Lemma tally_valid (present valid : bool) (weight : float) (acc : float * float) :
  (present = true -> valid = true) ->
  tally present valid weight acc = tally present true weight acc.
Proof.
  intros H. unfold tally. destruct present; [ | reflexivity ].
  now rewrite (H eq_refl).
Qed.

Lemma quality_of_flags (p1 p2 p3 p4 p5 p6 p7 p8 p9 : bool) :
  let acc :=
    tally p9 true 5%float
      (tally p8 true 5%float
         (tally p7 true 5%float
            (tally p6 true 5%float
               (tally p5 true 5%float
                  (tally p4 true 5%float
                     (tally p3 true 20%float
                        (tally p2 true 20%float
                           (tally p1 true 20%float (0%float, 0%float))))))))) in
  (if ltb 0%float (snd acc)
   then PrimFloat.mul (PrimFloat.div (fst acc) (snd acc)) 100%float
   else 0%float)
  = if p1 || p2 || p3 || p4 || p5 || p6 || p7 || p8 || p9
    then 100%float else 0%float.
Proof.
  destruct p1, p2, p3, p4, p5, p6, p7, p8, p9; reflexivity.
Qed.

(** X9.  [getDataQualityScore] is 100 as soon as every field that is
    present is valid and at least one of the nine scored fields is present:
    an absent field costs nothing.  It is 0 when none of them is present,
    and for a falsy argument. *)
Theorem quality_score_full_or_zero (data : JsVal) :
  truthy data = true ->
  (defined (get data "systemic_risk") = true ->
   isValidNumber (get data "systemic_risk") = true) ->
  (defined (get data "risk_level") = true ->
   includes ["high"; "medium"; "low"] (get data "risk_level") = true) ->
  (defined (get data "timestamp") = true ->
   exists s, get data "timestamp" = JStr s /\ s <> "") ->
  (forall signal,
     In signal quality_signals -> defined (get data signal) = true ->
     isValidNumber (get data signal) = true) ->
  getDataQualityScore data
  = if existsb (fun k => defined (get data k))
         ("systemic_risk" :: "risk_level" :: "timestamp" :: quality_signals)
    then 100%float else 0%float.
Proof.
  intros Hdata Hrisk Hlevel Htime Hsignals.
  unfold getDataQualityScore, js_not. rewrite Hdata. cbn [negb].
  unfold quality_signals in *. cbn [fold_left existsb].
  rewrite (tally_valid _ _ _ _ Hrisk), (tally_valid _ _ _ _ Hlevel).
  rewrite (tally_valid (defined (get data "timestamp"))).
  2:{ intros H. destruct (Htime H) as (s & -> & Hs).
      apply String.eqb_neq in Hs. now rewrite Hs. }
  rewrite !(tally_valid (defined (get data _)) (isValidNumber _) 5%float)
    by (apply Hsignals; cbn; tauto).
  rewrite orb_false_r.
  rewrite (quality_of_flags
             (defined (get data "systemic_risk"))
             (defined (get data "risk_level"))
             (defined (get data "timestamp"))
             (defined (get data "pca_component"))
             (defined (get data "credit_component"))
             (defined (get data "quantile_signal"))
             (defined (get data "dcc_correlation"))
             (defined (get data "har_excess_vol_z"))
             (defined (get data "composite_risk_score"))).
  now rewrite !orb_assoc.
Qed.

Lemma set_field_keys (k : string) (v : JsVal) (fs : list (string * JsVal)) :
  map fst (set_field k v fs) = map fst fs.
Proof.
  induction fs as [| [k' v'] fs IH]; cbn [set_field map]; [ reflexivity | ].
  destruct (String.eqb k k'); cbn [map fst]; [ reflexivity | now rewrite IH ].
Qed.

Lemma lookup_set_field_other (k k' : string) (v : JsVal)
  (fs : list (string * JsVal)) :
  k <> k' -> lookup k' (set_field k v fs) = lookup k' fs.
Proof.
  intros Hne. induction fs as [| [k0 v0] fs IH]; cbn [set_field lookup];
    [ reflexivity | ].
  destruct (String.eqb k k0) eqn:Hk; cbn [lookup].
  - apply String.eqb_eq in Hk. subst k0.
    replace (String.eqb k' k) with false; [ reflexivity | ].
    symmetry. apply String.eqb_neq. congruence.
  - now rewrite IH.
Qed.

Lemma lookup_set_field_same (k : string) (v : JsVal)
  (fs : list (string * JsVal)) :
  defined (lookup k fs) = true -> lookup k (set_field k v fs) = v.
Proof.
  induction fs as [| [k0 v0] fs IH]; cbn [set_field lookup];
    [ discriminate | ].
  destruct (String.eqb k k0) eqn:Hk; cbn [lookup]; rewrite Hk;
    [ reflexivity | exact IH ].
Qed.

Lemma sanitize_field_spec (f : JsVal -> JsVal) (fs : list (string * JsVal))
  (field : string) :
  map fst (sanitize_field f fs field) = map fst fs
  /\ (forall k, k <> field -> lookup k (sanitize_field f fs field) = lookup k fs)
  /\ lookup field (sanitize_field f fs field)
     = if defined (lookup field fs) then f (lookup field fs)
       else lookup field fs.
Proof.
  unfold sanitize_field.
  destruct (defined (lookup field fs)) eqn:Hdef.
  - repeat split.
    + apply set_field_keys.
    + intros k Hk. apply lookup_set_field_other. congruence.
    + now apply lookup_set_field_same.
  - repeat split.
Qed.

Lemma fold_sanitize_spec (f : JsVal -> JsVal) (fields : list string) :
  NoDup fields ->
  forall fs : list (string * JsVal),
    map fst (fold_left (sanitize_field f) fields fs) = map fst fs
    /\ (forall k, ~ In k fields ->
          lookup k (fold_left (sanitize_field f) fields fs) = lookup k fs)
    /\ (forall k, In k fields ->
          lookup k (fold_left (sanitize_field f) fields fs)
          = if defined (lookup k fs) then f (lookup k fs) else lookup k fs).
Proof.
  induction 1 as [| field fields Hnotin Hnodup IH]; intros fs;
    cbn [fold_left].
  - repeat split. intros k [].
  - destruct (sanitize_field_spec f fs field) as (Hkeys & Hother & Hsame).
    destruct (IH (sanitize_field f fs field)) as (IHkeys & IHout & IHin).
    repeat split.
    + now rewrite IHkeys.
    + intros k Hk. rewrite IHout by (intros Hin; apply Hk; now right).
      apply Hother. intros ->. apply Hk. now left.
    + intros k [-> | Hin].
      * now rewrite IHout.
      * rewrite IHin by assumption.
        rewrite Hother by (intros ->; contradiction). reflexivity.
Qed.

Lemma sanitize_fields_distinct :
  NoDup sanitize_numeric_fields /\ NoDup sanitize_boolean_fields
  /\ (forall k, In k sanitize_numeric_fields -> ~ In k sanitize_boolean_fields).
Proof.
  unfold sanitize_numeric_fields, sanitize_boolean_fields.
  repeat split.
  - repeat constructor; cbn; intuition discriminate.
  - repeat constructor; cbn; intuition discriminate.
  - cbn. intros k Hk Hb.
    repeat (destruct Hk as [<- | Hk]; [ intuition discriminate | ]).
    exact Hk.
Qed.

(** X10.  [sanitizeRiskData] on an object keeps its keys, in their order,
    and every field outside its two lists as it is; it adds no field.  Of
    the listed numeric fields, one that is present becomes the rounded
    number when it held a finite number and [null] otherwise; of the two
    listed boolean fields, one that is present becomes its truth value.
    Values that are not objects are returned as they are. *)
Theorem sanitize_keeps_shape (fs : list (string * JsVal)) :
  exists fs',
    sanitizeRiskData (JObj fs) = JObj fs'
    /\ map fst fs' = map fst fs
    /\ (forall k,
          ~ In k sanitize_numeric_fields -> ~ In k sanitize_boolean_fields ->
          lookup k fs' = lookup k fs)
    /\ (forall k,
          In k sanitize_numeric_fields ->
          lookup k fs'
          = if defined (lookup k fs) then
              (if isValidNumber (lookup k fs)
               then JNum (StringToNumber (toFixed (ToNumber (lookup k fs)) 6))
               else JNull)
            else JUndefined)
    /\ (forall k,
          In k sanitize_boolean_fields ->
          lookup k fs'
          = if defined (lookup k fs) then JBool (truthy (lookup k fs))
            else JUndefined)
    /\ (forall v,
          match v with JObj _ | JArr _ => False | _ => True end ->
          sanitizeRiskData v = v).
Proof.
  destruct sanitize_fields_distinct as (Hnum & Hbool & Hdisjoint).
  eexists. split; [ reflexivity | ].
  set (fs1 := fold_left (sanitize_field sanitize_number)
                sanitize_numeric_fields (spread (JObj fs))).
  destruct (fold_sanitize_spec sanitize_number _ Hnum (spread (JObj fs)))
    as (Hk1 & Hout1 & Hin1). fold fs1 in Hk1, Hout1, Hin1.
  destruct (fold_sanitize_spec (fun v => JBool (truthy v)) _ Hbool fs1)
    as (Hk2 & Hout2 & Hin2).
  cbn [spread] in *.
  repeat split.
  - now rewrite Hk2, Hk1.
  - intros k Hn Hb. now rewrite Hout2, Hout1.
  - intros k Hn. rewrite Hout2 by now apply Hdisjoint.
    rewrite Hin1 by assumption.
    destruct (lookup k fs) as [ | | b | n | s | items | fs0 ];
      reflexivity.
  - intros k Hb. rewrite Hin2 by assumption.
    rewrite Hout1 by (intros Hn; exact (Hdisjoint k Hn Hb)).
    destruct (defined (lookup k fs)) eqn:Hdef; [ reflexivity | ].
    destruct (lookup k fs); try discriminate. reflexivity.
  - intros v Hv. unfold sanitizeRiskData.
    destruct v; try contradiction;
      cbn [typeof String.eqb Ascii.eqb Bool.eqb negb];
      rewrite ?orb_true_r; reflexivity.
Qed.




(** ** The period metrics of the view *)

Lemma map_field_total (k : string) (items : list JsVal) :
  existsb nullish items = false ->
  map_field k items = Ok (map (fun d => get d k) items).
Proof.
  induction items as [| d items IH]; cbn [existsb map_field map];
    [ reflexivity | ].
  intros H. apply orb_false_iff in H. destruct H as [Hd Hrest].
  now rewrite Hd, IH.
Qed.

(** The read throws on the first element that is [null]. *)
Lemma map_field_throws (k : string) (items : list JsVal) :
  existsb nullish items = true ->
  exists d,
    In d items /\ nullish d = true
    /\ map_field k items = Throw (TypeError_read_of d k).
Proof.
  induction items as [| d items IH]; cbn [existsb map_field];
    [ discriminate | ].
  destruct (nullish d) eqn:Hd; cbn [orb].
  - intros _. exists d. repeat split; [ now left | exact Hd ].
  - intros H. destruct (IH H) as (d' & Hin & Hd' & ->).
    exists d'. repeat split; [ now right | exact Hd' ].
Qed.









(** ** Warnings and projections of the store *)



(** X15.  The projection [getVisualizationData('signal-timeline')] of a
    store with a snapshot: when no item of the history is [null], its seven
    arrays are the fields of the items, item by item, so they all have the
    length of the history; when an item is [null] (an enhanced batch is
    stored with its [null] items) it throws. *)
Theorem signal_timeline_aligned (s : Store) (history : list JsVal) :
  truthy (currentMetrics s) = true -> riskHistory s = JArr history ->
  (existsb nullish history = false ->
   getVisualizationData (JStr "signal-timeline") s
   = Ok (JObj
           [ ("timestamps", JArr (map (fun d => get d "date") history));
             ("signals",
               JObj
                 [ ("systemic",
                     JArr (map (fun d => get d "systemic_risk") history));
                   ("quantile",
                     JArr (map (fun d => get d "quantile_signal") history));
                   ("dcc",
                     JArr (map (fun d => get d "dcc_correlation") history));
                   ("har",
                     JArr (map (fun d => get d "har_excess_vol") history));
                   ("composite",
                     JArr (map (fun d => get d "composite_risk_score") history))
                 ]);
             ("warnings", JArr (map (fun d => get d "is_warning") history)) ]))
  /\ (existsb nullish history = true ->
      exists e, getVisualizationData (JStr "signal-timeline") s = Throw e).
Proof.
  intros Hm Hh. unfold getVisualizationData, js_not. rewrite Hm, Hh.
  cbn [negb]. split; intros Hnull.
  - now rewrite !(map_field_total _ _ Hnull).
  - destruct (map_field_throws "date" _ Hnull) as (d & _ & _ & ->). eauto.
Qed.

(** ** Reconnection without end *)

Lemma set_ready_length (l : list ReadyState) (i : nat) (s : ReadyState) :
  List.length (set_ready i s l) = List.length l.
Proof.
  revert i. induction l as [| y l IH]; intros [| i]; cbn; try reflexivity.
  now rewrite IH.
Qed.

Lemma set_ready_last (l : list ReadyState) (s s' : ReadyState) :
  set_ready (List.length l) s (l ++ [s']) = (l ++ [s])%list.
Proof.
  induction l as [| y l IH]; cbn; [ reflexivity | now rewrite IH ].
Qed.

Lemma nth_error_last (l : list ReadyState) (s : ReadyState) :
  nth_error (l ++ [s]) (List.length l) = Some s.
Proof. induction l as [| y l IH]; cbn; [ reflexivity | exact IH ]. Qed.

(** One drop and reconnection, from a channel whose newest socket [i] is
    the one the hook refers to, open, with no reconnect pending. *)
Lemma one_drop (ch : Channel) (i : nat) :
  List.length (sockets ch) = S i -> socketRef ch = Some i ->
  ready_of ch i = Some OPEN -> timers ch = [] ->
  exists ch',
    ws_run ch [Closed i; Elapsed 5000; TimerFired; Opened (S i)] = Some ch'
    /\ List.length (sockets ch') = S (S i)
    /\ socketRef ch' = Some (S i)
    /\ ready_of ch' (S i) = Some OPEN
    /\ timers ch' = []
    /\ ws_clock ch' = (ws_clock ch + 5000)%Z.
Proof.
  destruct ch as [st clk ref socks tms cb obs]. unfold ready_of.
  cbn [sockets socketRef timers ws_clock]. intros Hlen -> Hopen ->.
  assert (List.length (set_ready i CLOSED socks) = S i) as Hlen'
    by now rewrite set_ready_length.
  cbn [ws_run ws_step]. unfold ready_of. cbn [sockets]. rewrite Hopen.
  change (0 <=? 5000)%Z with true.
  cbn [onclose set_sockets ws_store ws_clock socketRef sockets timers
       has_callback observed app].
  rewrite Z.leb_refl. unfold connect, ready_of.
  cbn [ws_store ws_clock socketRef sockets timers has_callback observed].
  rewrite (nth_error_set_ready _ _ CLOSED _ Hopen). cbn [is_open].
  cbn [sockets]. rewrite <- Hlen'. rewrite nth_error_last, set_ready_last.
  eexists. split; [ reflexivity | ].
  cbn [onopen with_store set_sockets ws_clock socketRef sockets timers].
  rewrite length_app, nth_error_last. cbn [List.length].
  repeat split. lia.
Qed.

Lemma ws_run_app (ch : Channel) (es es' : list WsEvent) :
  ws_run ch (es ++ es') =
  match ws_run ch es with
  | Some ch' => ws_run ch' es'
  | None => None
  end.
Proof.
  revert ch. induction es as [| e es IH]; intros ch; cbn [app ws_run];
    [ reflexivity | ].
  destruct (ws_step ch e); [ apply IH | reflexivity ].
Qed.

(** X16.  The reconnection has no limit and no growing delay: from a
    channel whose socket is open, any number [count] of drops is followed
    by as many reconnections, each 5000 ms after its drop; afterwards
    [count] more sockets exist, the hook refers to the newest, which is
    open, and no reconnect is pending.  A reconnect cannot happen earlier
    than 5000 ms after the drop. *)
Theorem reconnects_without_limit (count : nat) :
  forall (ch : Channel) (i : nat),
    List.length (sockets ch) = S i -> socketRef ch = Some i ->
    ready_of ch i = Some OPEN -> timers ch = [] ->
    (exists ch',
        ws_run ch (drops i count) = Some ch'
        /\ List.length (sockets ch') = S i + count
        /\ socketRef ch' = Some (i + count)
        /\ ready_of ch' (i + count) = Some OPEN
        /\ timers ch' = []
        /\ ws_clock ch' = (ws_clock ch + 5000 * Z.of_nat count)%Z)
    /\ (forall ms,
          (ms < 5000)%Z -> ws_run ch [Closed i; Elapsed ms; TimerFired] = None).
Proof.
  induction count as [| count IH]; intros ch i Hlen Href Hopen Htimers.
  - split.
    + exists ch. cbn [drops ws_run]. rewrite !Nat.add_0_r.
      repeat split; try assumption. lia.
    + intros ms Hms. unfold ready_of in Hopen. cbn [ws_run ws_step].
      unfold ready_of. rewrite Hopen.
      cbn [onclose set_sockets sockets timers ws_clock]. rewrite Htimers.
      destruct (0 <=? ms)%Z; [ | reflexivity ].
      cbn [app timers ws_clock].
      replace (ws_clock ch + 5000 <=? ws_clock ch + ms)%Z with false
        by (symmetry; apply Z.leb_gt; lia).
      reflexivity.
  - split; [ | exact (proj2 (IH ch i Hlen Href Hopen Htimers)) ].
    destruct (one_drop ch i Hlen Href Hopen Htimers)
      as (ch1 & Hrun1 & Hlen1 & Href1 & Hopen1 & Htimers1 & Hclock1).
    destruct (IH ch1 (S i) Hlen1 Href1 Hopen1 Htimers1)
      as ((ch' & Hrun & Hlen' & Href' & Hopen' & Htimers' & Hclock') & _).
    exists ch'.
    change (drops i (S count))
      with ([Closed i; Elapsed 5000; TimerFired; Opened (S i)]
              ++ drops (S i) count)%list.
    rewrite ws_run_app, Hrun1, Hrun.
    replace (i + S count) with (S i + count) by lia.
    repeat split; try assumption; lia.
Qed.

(** ** The range effect run again *)

Lemma strict_eq_refl (v : JsVal) : plain_field v = true -> strict_eq v v = true.
Proof.
  destruct v as [| | b | n | s | l | fs]; cbn [plain_field strict_eq];
    try reflexivity; try discriminate.
  - intros _. now destruct b.
  - unfold is_nan. now rewrite negb_involutive.
  - intros _. apply String.eqb_refl.
Qed.

Lemma eqb_nan_r (x n : float) : is_nan n = true -> PrimFloat.eqb x n = false.
Proof.
  intros H. rewrite eqb_spec, (is_nan_spec n H). unfold SFeqb, SFcompare.
  destruct (Prim2SF x) as [s | s | | s m e]; try destruct s; reflexivity.
Qed.

Lemma normalizeRange_truthy (range : JsVal) :
  js_not (normalizeRange range) = false.
Proof.
  unfold normalizeRange. destruct (nullish range); [ reflexivity | ].
  destruct (String.eqb (typeof range) "number"); reflexivity.
Qed.

(** X17.  With a range whose fields are primitives other than NaN, running
    the range effect a second time with the same argument changes nothing:
    no second fetch starts, whether or not the first run started one. *)
Theorem rerender_settles (daysRange : JsVal) (h : Hook) :
  plain_field (get (normalizeRange daysRange) "days") = true ->
  plain_field (get (normalizeRange daysRange) "startDate") = true ->
  plain_field (get (normalizeRange daysRange) "endDate") = true ->
  rerender daysRange (rerender daysRange h) = rerender daysRange h.
Proof.
  intros Hdays Hstart Hend.
  assert (range_changed (normalizeRange daysRange) (normalizeRange daysRange)
          = false) as Hsame.
  { unfold range_changed.
    now rewrite normalizeRange_truthy, !strict_eq_refl. }
  unfold rerender, rangeEffect, render. cbn [c_daysRange c_isLoading].
  destruct (range_changed (previousRangeRef h) (normalizeRange daysRange))
    eqn:Hchanged.
  - unfold fetchRiskHistory_start.
    destruct (isLoading (h_store h)); cbn [previousRangeRef];
      now rewrite Hsame.
  - now rewrite Hchanged.
Qed.

(** X18.  With NaN as the number of days the stored range never compares
    equal to the current one: every run of the range effect on a hook
    whose store is not loading starts a fetch.  So when that fetch has
    settled, however it settles, the hook is idle again with this very
    range stored, and the next run of the effect starts the same fetch
    once more. *)
Theorem nan_days_always_refetch (n : float) (h : Hook) :
  is_nan n = true -> isLoading (h_store h) = false -> in_flight h = [] ->
  in_flight (rerender (JNum n) h) = [normalizeRange (JNum n)]
  /\ forall (now : Z) (r : Result JsVal),
       let h' := fetchRiskHistory_resume now r (rerender (JNum n) h) in
       isLoading (h_store h') = false
       /\ in_flight h' = []
       /\ previousRangeRef h' = normalizeRange (JNum n)
       /\ in_flight (rerender (JNum n) h') = [normalizeRange (JNum n)].
Proof.
  intros Hnan Hidle Hnone.
  assert (forall prev, range_changed prev (normalizeRange (JNum n)) = true)
    as Hchanged.
  { intros prev. unfold range_changed, normalizeRange.
    cbn [nullish typeof String.eqb Ascii.eqb Bool.eqb get lookup].
    destruct (get prev "days"); cbn [strict_eq negb];
      rewrite ?(eqb_nan_r _ n Hnan), ?orb_true_r; reflexivity. }
  assert (forall g, isLoading (h_store g) = false -> in_flight g = [] ->
            rerender (JNum n) g
            = {| h_store := setLoading true (setLoading true (h_store g));
                 previousRangeRef := normalizeRange (JNum n);
                 in_flight := [normalizeRange (JNum n)] |}) as Hrun.
  { intros g Hg Hin. unfold rerender, rangeEffect, render.
    cbn [c_daysRange c_isLoading]. rewrite Hchanged.
    unfold fetchRiskHistory_start. rewrite Hg.
    cbn [h_store in_flight previousRangeRef].
    now rewrite Hin, normalizeRange_idempotent. }
  rewrite (Hrun h Hidle Hnone). split; [ reflexivity | ].
  intros now r h'. subst h'. unfold fetchRiskHistory_resume.
  cbn [in_flight h_store previousRangeRef].
  rewrite Hrun; [ | reflexivity | reflexivity ].
  repeat split.
Qed.


(** ** The two checks of a snapshot *)

Lemma level_is_regime (v w : JsVal) :
  includes ["high"; "medium"; "low"] v = true ->
  includes regime_names (js_or v w) = true.
Proof.
  destruct v as [| | b | n | s | l | fs]; cbn [includes]; try discriminate.
  cbn [existsb]. rewrite orb_false_r, !orb_true_iff, !String.eqb_eq.
  intros [-> | [-> | ->]]; reflexivity.
Qed.

(** X19.  What [isValidEnhancedSnapshot] accepts has a finite number as
    [systemic_risk] and one of high, medium and low as [risk_level]; when
    its [timestamp] is a string (the check asks only that it is present) it
    also passes the per-item check of [isValidRiskData], so a batch that
    check accepts stays accepted with the snapshot added to it. *)
Theorem accepted_snapshot_is_valid_item (snapshot : JsVal) :
  isValidEnhancedSnapshot snapshot = true ->
  isValidNumber (get snapshot "systemic_risk") = true
  /\ includes ["high"; "medium"; "low"] (get snapshot "risk_level") = true
  /\ nullish (get snapshot "timestamp") = false
  /\ (typeof (get snapshot "timestamp") = "string" ->
      valid_item snapshot = true
      /\ forall items,
           isValidRiskData (JArr items) = true ->
           isValidRiskData (JArr (snapshot :: items)) = true).
Proof.
  unfold isValidEnhancedSnapshot.
  destruct (js_not snapshot || negb (String.eqb (typeof snapshot) "object"))
    eqn:Hobject; [ discriminate | ].
  apply orb_false_elim in Hobject. destruct Hobject as [Htruthy _].
  unfold js_not in Htruthy. apply negb_false_iff in Htruthy.
  cbn [forallb].
  destruct (nullish (get snapshot "systemic_risk")) eqn:Hscore;
    [ discriminate | ].
  destruct (nullish (get snapshot "risk_level")); [ discriminate | ].
  destruct (nullish (get snapshot "timestamp")) eqn:Hstamp;
    [ discriminate | ].
  destruct (nullish (get snapshot "start_date")); [ discriminate | ].
  destruct (nullish (get snapshot "end_date")); [ discriminate | ].
  cbn [negb andb].
  destruct (includes ["high"; "medium"; "low"] (get snapshot "risk_level"))
    eqn:Hlevel; [ | discriminate ].
  cbn [negb]. intros Hnumbers.
  apply andb_true_iff in Hnumbers. destruct Hnumbers as [Hnumber _].
  assert (isValidNumber (get snapshot "systemic_risk") = true) as Hvalid.
  { destruct (get snapshot "systemic_risk"); try discriminate;
      exact Hnumber. }
  repeat split; try assumption.
  - unfold valid_item. rewrite Htruthy, (level_is_regime _ _ Hlevel), H.
    destruct (get snapshot "systemic_risk"); try discriminate. reflexivity.
  - intros items. unfold isValidRiskData.
    cbn [js_not truthy negb get isArray andb every forallb].
    intros ->. rewrite andb_true_r.
    unfold valid_item. rewrite Htruthy, (level_is_regime _ _ Hlevel), H.
    destruct (get snapshot "systemic_risk"); try discriminate. reflexivity.
Qed.

End Engine.

(** * Closed instances

    The definitions run on the inputs of the section "Inputs of the closed
    instances", with the engine chosen there. *)

(** A transport that fails twice and then succeeds: three requests, the
    pauses of 1000 ms and 2000 ms between them, and the batch as value. *)
Example fails_twice_then_succeeds :
  getRiskHistory example_StringToNumber example_NumberToString
    example_spread_limit
    (normalizeRange (JNum 180%float)) (world_of flaky)
  = (Ok (JObj [("data", JArr [])]),
     {| store := initialStore;
        clock := 3000;
        issued := 3;
        trace := [ Requested request_180; Slept 1000; Requested request_180;
                   Slept 2000; Requested request_180 ];
        network := flaky |}).
Proof. reflexivity. Qed.

(** A transport that always fails: three requests, the error in the store,
    the history as it was. *)
Example always_fails_keeps_history :
  let w :=
    fetchRiskHistory example_StringToNumber example_NumberToString
      example_spread_limit false
      (JNum 180%float) (world_of (fun _ _ => unreachable)) in
  store w = setError (JStr "Failed to fetch") initialStore
  /\ issued w = 3
  /\ trace w = [ Requested request_180; Slept 1000; Requested request_180;
                 Slept 2000; Requested request_180 ].
Proof. repeat split; reflexivity. Qed.

(** C5 at [useRiskData(180)] mounting on the initial store. *)
Lemma mount_starts_two_fetches :
  in_flight (mount (JNum 180%float) freshHook)
  = [ JObj [("days", JNum 180%float); ("startDate", JUndefined);
            ("endDate", JUndefined)];
      JObj [("days", JNum 180%float); ("startDate", JUndefined);
            ("endDate", JUndefined)] ].
Proof.
  exact (mount_two_fetches (JNum 180%float) freshHook eq_refl eq_refl eq_refl).
Defined.

(** C7 at the channel of a hook that mounted and whose socket opened. *)
Lemma reconnects_after_teardown :
  ws_run (initialChannel false) [Mounted; Opened 0] = Some connectedChannel
  /\ exists ch',
       ws_run connectedChannel [Unmounted; Closed 0; Elapsed 5000; TimerFired]
       = Some ch'
       /\ sockets ch' = [CLOSED; CONNECTING]
       /\ socketRef ch' = Some 1
       /\ timers ch' = [].
Proof.
  split; [ reflexivity | ].
  exact (teardown_does_not_stop_reconnection connectedChannel 0
           eq_refl eq_refl eq_refl).
Defined.

(** The hook after its first render: the same range again starts nothing,
    and a new range seen while the fetches are loading is recorded and
    starts nothing. *)
Example later_renders :
  rerender (JNum 180%float) (mount (JNum 180%float) freshHook)
  = mount (JNum 180%float) freshHook
  /\ in_flight (rerender (JNum 90%float) (mount (JNum 180%float) freshHook))
     = in_flight (mount (JNum 180%float) freshHook)
  /\ previousRangeRef
       (rerender (JNum 90%float) (mount (JNum 180%float) freshHook))
     = normalizeRange (JNum 90%float).
Proof. repeat split; reflexivity. Qed.



(** C3, refuted as stated: a transport that always succeeds with a body
    carrying an [error] field is asked three times, with both pauses. *)
Lemma error_body_is_retried :
  getRiskHistory example_StringToNumber example_NumberToString
    example_spread_limit
    (normalizeRange (JNum 180%float))
    (world_of (fun _ _ => delivers (JObj [("error", JStr "upstream failure")])))
  = (Throw (Error "upstream failure"),
     {| store := setError (JStr "upstream failure") initialStore;
        clock := 3000;
        issued := 3;
        trace := [ Requested request_180; Slept 1000; Requested request_180;
                   Slept 2000; Requested request_180 ];
        network := fun _ _ => delivers (JObj [("error", JStr "upstream failure")]) |}).
Proof. reflexivity. Qed.

(** C3, as amended, at a transport that fails once and then delivers a body
    of an unknown shape: the second request is the last, and the fetch ends
    with the format error. *)
Lemma body_validation_retry_or_terminal_witness :
  trace (snd (getRiskHistory example_StringToNumber example_NumberToString
                example_spread_limit (JObj [("days", JNum 180%float)])
                (world_of (fails_once_then (JObj [("rows", JArr [])])))))
  = [Requested request_180; Slept 1000; Requested request_180]
  /\ issued (snd (getRiskHistory example_StringToNumber example_NumberToString
                    example_spread_limit (JObj [("days", JNum 180%float)])
                    (world_of (fails_once_then (JObj [("rows", JArr [])])))))
     = 2
  /\ fst (getRiskHistory example_StringToNumber example_NumberToString
            example_spread_limit (JObj [("days", JNum 180%float)])
            (world_of (fails_once_then (JObj [("rows", JArr [])]))))
     = Throw (Error "Invalid risk data format received").
Proof.
  pose proof
    (body_validation_retry_or_terminal example_StringToNumber
       example_NumberToString example_spread_limit
       [("days", JNum 180%float)]
       (world_of (fails_once_then (JObj [("rows", JArr [])])))
       1
       {| ok := true; status := 200%float;
          json := Ok (JObj [("rows", JArr [])]) |}
       (JObj [("rows", JArr [])])) as H.
  cbv zeta in H. specialize (H ltac:(lia)).
  match type of H with
  | ?A -> _ => assert A as Hfailed
  end.
  { intros j Hj. destruct j as [| j]; [ eexists; reflexivity | lia ]. }
  destruct (H Hfailed eq_refl eq_refl eq_refl)
    as (Htrace & Hissued & _ & _ & Hformat).
  split; [ exact Htrace | ].
  split; [ exact Hissued | exact (Hformat eq_refl eq_refl) ].
Defined.


(** C6, refuted as stated: a message whose [timestamp] is a number is
    forwarded to the store and to the observer, a message whose [timestamp]
    is the empty string is dropped, and a message with an [error] field
    holding [null] is forwarded. *)
Lemma numeric_timestamp_is_forwarded :
  typeof (get (JObj [("timestamp", JNum 1700000000000%float)]) "timestamp")
  = "number"
  /\ currentMetrics
       (ws_store
          (onmessage (Ok (JObj [("timestamp", JNum 1700000000000%float)]))
             (initialChannel true)))
     = JObj [("timestamp", JNum 1700000000000%float)]
  /\ observed
       (onmessage (Ok (JObj [("timestamp", JNum 1700000000000%float)]))
          (initialChannel true))
     = [JObj [("timestamp", JNum 1700000000000%float)]]
  /\ onmessage (Ok (JObj [("timestamp", JStr "")])) (initialChannel true)
     = initialChannel true
  /\ currentMetrics
       (ws_store
          (onmessage
             (Ok (JObj [("timestamp", JStr "2024-01-01T00:00:00Z");
                        ("error", JNull)]))
             (initialChannel true)))
     = JObj [("timestamp", JStr "2024-01-01T00:00:00Z"); ("error", JNull)].
Proof. repeat split; reflexivity. Qed.

(** C8, refuted as stated: a valid stream message replaces the snapshot and
    leaves the error that was set before. *)
Lemma realtime_update_keeps_error :
  error
    (setRealtimeData 1000 (JObj [("timestamp", JStr "2024-01-01T00:00:00Z")])
       (setError (JStr "WebSocket connection error") initialStore))
  = JStr "WebSocket connection error"
  /\ error
       (ws_store
          (onmessage (Ok (JObj [("timestamp", JStr "2024-01-01T00:00:00Z")]))
             (onerror (initialChannel false))))
     = JStr "WebSocket connection error".
Proof. split; reflexivity. Qed.



(** C10 at an object without [data], on a store that holds one
    observation. *)
Lemma setRiskData_invalid_resets_witness :
  riskHistory
    (setRiskData 1000 (JObj [("rows", JArr [])])
       (setRiskData 500 (JArr [observation 1 "low" "2024-01-01"]) initialStore))
  = JArr []
  /\ summaryData
       (setRiskData 1000 (JObj [("rows", JArr [])])
          (setRiskData 500 (JArr [observation 1 "low" "2024-01-01"]) initialStore))
     = JNull
  /\ currentMetrics
       (setRiskData 1000 (JObj [("rows", JArr [])])
          (setRiskData 500 (JArr [observation 1 "low" "2024-01-01"]) initialStore))
     = JObj []
  /\ error
       (setRiskData 1000 (JObj [("rows", JArr [])])
          (setRiskData 500 (JArr [observation 1 "low" "2024-01-01"]) initialStore))
     = JStr "Invalid data format".
Proof.
  exact (setRiskData_invalid_resets 1000 (JObj [("rows", JArr [])])
           (setRiskData 500 (JArr [observation 1 "low" "2024-01-01"]) initialStore)
           eq_refl eq_refl).
Defined.

(** ** Instances of the further properties *)

(** X1 at a store that is given a string, then a batch, as risk data. *)
Lemma history_stays_array_witness :
  isArray
    (riskHistory
       (fold_left act
          [ SetRiskData 5 (JStr "oops"); SetLoading true; Reset;
            SetRiskData 7
              (JObj [("data", JArr [observation 1 "low" "2024-01-01"])]);
            SetCurrentMetrics 8 JNull ]
          initialStore))
  = true.
Proof.
  exact (history_stays_array
           [ SetRiskData 5 (JStr "oops"); SetLoading true; Reset;
             SetRiskData 7
               (JObj [("data", JArr [observation 1 "low" "2024-01-01"])]);
             SetCurrentMetrics 8 JNull ]
           initialStore eq_refl).
Defined.

(** X3 at the store after a message of the stream that carries no
    snapshot fields. *)
Lemma dashboard_metrics_never_throw_witness :
  nullish
    (currentMetrics
       (setRealtimeData 0 (JObj [("timestamp", JStr "2024-01-01T00:00:00Z")])
          initialStore))
  = false
  /\ exists m,
       getDashboardMetrics
         (setRealtimeData 0 (JObj [("timestamp", JStr "2024-01-01T00:00:00Z")])
            initialStore)
       = Ok m.
Proof.
  destruct (dashboard_metrics_never_throw example_StringToNumber
              example_NumberToString example_spread_limit
              (setRealtimeData 0
                 (JObj [("timestamp", JStr "2024-01-01T00:00:00Z")])
                 initialStore)
              (reach_stream example_StringToNumber example_NumberToString
                example_spread_limit
                 connectedChannel
                 (onmessage
                    (Ok (JObj [("timestamp", JStr "2024-01-01T00:00:00Z")]))
                    connectedChannel)
                 (Message 0
                    (Ok (JObj [("timestamp", JStr "2024-01-01T00:00:00Z")])))
                 (reach_initial _ _ _) eq_refl))
    as (Hmetrics & Hreturns & _).
  split; assumption.
Defined.

(** X4 at three attempts on a transport that always fails. *)
Lemma retries_exhausted_witness :
  exists e w',
    fetchWithRetry example_NumberToString request_180 3
      (world_of (fun _ _ => unreachable))
    = (Throw e, w')
    /\ attempt_result example_NumberToString unreachable = Throw e
    /\ issued w' = 3
    /\ clock w' = 3000%Z
    /\ store w' = setError (JStr (err_message e)) initialStore.
Proof.
  refine (retries_exhausted example_NumberToString request_180 3
            (world_of (fun _ _ => unreachable)) _ _).
  - lia.
  - intros k _. eexists. reflexivity.
Defined.

(** X7 at a range of 30 days between two dates in order, and at ranges
    that are rejected: an infinite and a zero number of days, a month of one
    digit, and dates out of order. *)
Lemma validateDateRangeParams_accepts_witness :
  validateDateRangeParams example_StringToNumber example_NumberToString
    example_DateParse
    (JObj [("days", JNum 30%float); ("startDate", JStr "2024-01-01");
           ("endDate", JStr "2024-02-01")])
  = Ok true
  /\ validateDateRangeParams example_StringToNumber example_NumberToString
       example_DateParse (JObj [("days", JNum infinity)])
     = Throw (Error "Days parameter must be a positive number")
  /\ validateDateRangeParams example_StringToNumber example_NumberToString
       example_DateParse (JObj [("days", JNum 0%float)])
     = Throw (Error "Days parameter must be a positive number")
  /\ validateDateRangeParams example_StringToNumber example_NumberToString
       example_DateParse (JObj [("startDate", JStr "2024-1-01")])
     = Throw (Error "startDate must be in YYYY-MM-DD format")
  /\ validateDateRangeParams example_StringToNumber example_NumberToString
       example_DateParse
       (JObj [("startDate", JStr "2024-03-01"); ("endDate", JStr "2024-02-01")])
     = Throw (Error "startDate cannot be after endDate").
Proof.
  split; [ | repeat split; reflexivity ].
  apply (proj2
           (proj1
              (validateDateRangeParams_accepts example_StringToNumber
                 example_NumberToString example_DateParse
                 (JObj [("days", JNum 30%float);
                        ("startDate", JStr "2024-01-01");
                        ("endDate", JStr "2024-02-01")])))).
  split; [ | split; [ | split ] ].
  - right. exists 30%float. split; [ reflexivity | ].
    do 2 eexists. vm_compute. reflexivity.
  - right. exists "2024-01-01". split; [ reflexivity | ].
    do 8 eexists. split; [ reflexivity | ].
    repeat (apply Forall_cons;
            [ cbn; repeat first [ left; reflexivity | right ] | ]).
    apply Forall_nil.
  - right. exists "2024-02-01". split; [ reflexivity | ].
    do 8 eexists. split; [ reflexivity | ].
    repeat (apply Forall_cons;
            [ cbn; repeat first [ left; reflexivity | right ] | ]).
    apply Forall_nil.
  - intros s e Hs He. injection Hs as <-. injection He as <-. reflexivity.
Defined.

(** X8 at a range whose start names a thirteenth month, which V8 does not
    parse; a start that it does parse, the 31st of February, is compared and
    rejected. *)
Lemma unparsed_dates_accepted_witness :
  validateDateRangeParams example_StringToNumber example_NumberToString
    example_DateParse
    (JObj [("startDate", JStr "2024-13-01"); ("endDate", JStr "2024-01-01")])
  = Ok true
  /\ validateDateRangeParams example_StringToNumber example_NumberToString
       example_DateParse
       (JObj [("startDate", JStr "2024-02-31"); ("endDate", JStr "2024-01-01")])
     = Throw (Error "startDate cannot be after endDate").
Proof.
  split; [ | reflexivity ].
  exact (unparsed_dates_accepted example_StringToNumber
           example_NumberToString example_DateParse
           "2024-13-01" "2024-01-01" eq_refl eq_refl (or_introl eq_refl)).
Defined.

(** X9 at an object with two of the nine scored fields. *)
Lemma quality_score_full_or_zero_witness :
  getDataQualityScore
    (JObj [("systemic_risk", JNum 1%float); ("risk_level", JStr "low")])
  = 100%float.
Proof.
  refine (quality_score_full_or_zero
            (JObj [("systemic_risk", JNum 1%float); ("risk_level", JStr "low")])
            eq_refl (fun _ => eq_refl) (fun _ => eq_refl) _ _).
  - intros H. discriminate H.
  - intros signal Hin H. revert H.
    cbn [In quality_signals] in Hin.
    repeat (destruct Hin as [<- | Hin]; [ discriminate | ]).
    destruct Hin.
Defined.





(** X15 at a history of two observations, and at the same history with a
    [null] between them. *)
Lemma signal_timeline_aligned_witness :
  (exists v,
      getVisualizationData (JStr "signal-timeline")
        (store_with_history
           [observation 0 "low" "2024-01-01";
            observation 2 "high" "2024-01-02"])
      = Ok v
      /\ get v "timestamps" = JArr [JStr "2024-01-01"; JStr "2024-01-02"]
      /\ get (get v "signals") "systemic" = JArr [JNum 0%float; JNum 2%float]
      /\ get v "warnings" = JArr [JUndefined; JUndefined])
  /\ exists e,
       getVisualizationData (JStr "signal-timeline")
         (store_with_history
            [observation 0 "low" "2024-01-01"; JNull;
             observation 2 "high" "2024-01-02"])
       = Throw e.
Proof.
  split.
  - eexists. split.
    + exact (proj1 (signal_timeline_aligned
                      (store_with_history
                         [observation 0 "low" "2024-01-01";
                          observation 2 "high" "2024-01-02"])
                      [observation 0 "low" "2024-01-01";
                       observation 2 "high" "2024-01-02"]
                      eq_refl eq_refl) eq_refl).
    + repeat split.
  - exact (proj2 (signal_timeline_aligned
                    (store_with_history
                       [observation 0 "low" "2024-01-01"; JNull;
                        observation 2 "high" "2024-01-02"])
                    [observation 0 "low" "2024-01-01"; JNull;
                     observation 2 "high" "2024-01-02"]
                    eq_refl eq_refl) eq_refl).
Defined.

(** X16 at two drops of the connection of a hook that has mounted. *)
Lemma reconnects_without_limit_witness :
  (exists ch',
      ws_run connectedChannel (drops 0 2) = Some ch'
      /\ List.length (sockets ch') = 3
      /\ socketRef ch' = Some 2
      /\ ready_of ch' 2 = Some OPEN
      /\ timers ch' = []
      /\ ws_clock ch' = 10000%Z)
  /\ (forall ms,
        (ms < 5000)%Z ->
        ws_run connectedChannel [Closed 0; Elapsed ms; TimerFired] = None).
Proof.
  exact (reconnects_without_limit 2 connectedChannel 0
           eq_refl eq_refl eq_refl eq_refl).
Defined.

(** X17 at [useRiskData(90)] on the hook before its first render. *)
Lemma rerender_settles_witness :
  rerender (JNum 90%float) (rerender (JNum 90%float) freshHook)
  = rerender (JNum 90%float) freshHook.
Proof.
  exact (rerender_settles (JNum 90%float) freshHook eq_refl eq_refl eq_refl).
Defined.

(** X18 at [useRiskData(NaN)] on the hook before its first render. *)
Lemma nan_days_always_refetch_witness :
  in_flight (rerender (JNum nan) freshHook) = [normalizeRange (JNum nan)]
  /\ forall (now : Z) (r : Result JsVal),
       let h' := fetchRiskHistory_resume now r (rerender (JNum nan) freshHook) in
       isLoading (h_store h') = false
       /\ in_flight h' = []
       /\ previousRangeRef h' = normalizeRange (JNum nan)
       /\ in_flight (rerender (JNum nan) h') = [normalizeRange (JNum nan)].
Proof.
  exact (nan_days_always_refetch nan freshHook eq_refl eq_refl eq_refl).
Defined.


(** X19 at a snapshot with the five core fields. *)
Lemma accepted_snapshot_is_valid_item_witness :
  isValidNumber (JNum 1%float) = true
  /\ includes ["high"; "medium"; "low"] (JStr "low") = true
  /\ valid_item
       (JObj [("systemic_risk", JNum 1%float); ("risk_level", JStr "low");
              ("timestamp", JStr "2024-01-02T00:00:00Z");
              ("start_date", JStr "2024-01-01");
              ("end_date", JStr "2024-01-02")])
     = true.
Proof.
  destruct (accepted_snapshot_is_valid_item
              (JObj [("systemic_risk", JNum 1%float); ("risk_level", JStr "low");
                     ("timestamp", JStr "2024-01-02T00:00:00Z");
                     ("start_date", JStr "2024-01-01");
                     ("end_date", JStr "2024-01-02")])
              eq_refl)
    as (Hnumber & Hlevel & _ & Hitem).
  split; [ exact Hnumber | ].
  split; [ exact Hlevel | exact (proj1 (Hitem eq_refl)) ].
Defined.
